(** * Thoughts-app: the in-memory storage layer ([MemStorage])

    A shallow embedding of the storage module (class [MemStorage]) and of the
    part of the schema module ([@shared/schema]) it relies on, followed by the
    properties of the department cascade, of the thought history and of the
    query filters.

    Conventions of the embedding:
    - a JavaScript [Map<number, V>] is an insertion-ordered association list
      with unique keys ([JsMap]); [Map.prototype.set] on a present key
      replaces the value in place, on an absent key it appends;
    - integers (ids, counters, [editCount]) are [Z]; a [Date] is its time
      value in milliseconds since the epoch, also a [Z];
    - a nullable column ([T | null]) is an [option];
    - every method is a computation in the state monad [M] over [Storage];
      [new Date()] and [Date.now()] read the clock, which is passed to the
      method as the argument [now];
    - strings are sequences of 8-bit code units; [trim] and [toLowerCase]
      act on the ASCII range;
    - [console.log] calls are left out. *)

From Stdlib Require Import ZArith String Ascii List Lia Bool.
From Stdlib Require Import Sorting.Sorted Sorting.Permutation.
From stdpp Require Import prelude strings pretty.

Local Open Scope string_scope.
Local Open Scope list_scope.
Local Open Scope Z_scope.

(** ** JavaScript [Map<number, V>] *)

Module JsMap.
Section defs.
Context {V : Type}.

(** [Map.prototype.get] *)
Fixpoint get (k : Z) (m : list (Z * V)) : option V :=
  match m with
  | [] => None
  | (k', v) :: m' => if Z.eqb k' k then Some v else get k m'
  end.

(** [Map.prototype.set]: an existing key keeps its place in the iteration
    order, a new key goes last. *)
Fixpoint set (k : Z) (v : V) (m : list (Z * V)) : list (Z * V) :=
  match m with
  | [] => [(k, v)]
  | (k', v') :: m' =>
      if Z.eqb k' k then (k, v) :: m' else (k', v') :: set k v m'
  end.

(** [Map.prototype.has] *)
Definition has (k : Z) (m : list (Z * V)) : bool :=
  match get k m with Some _ => true | None => false end.

(** [Map.prototype.delete]: the new map, the result being [has k m]. *)
Fixpoint delete (k : Z) (m : list (Z * V)) : list (Z * V) :=
  match m with
  | [] => []
  | (k', v) :: m' => if Z.eqb k' k then m' else (k', v) :: delete k m'
  end.

(** [Array.from(m.keys())], [Array.from(m.values())]; [Array.from(m.entries())]
    is the list itself. *)
Definition keys (m : list (Z * V)) : list Z := map fst m.
Definition values (m : list (Z * V)) : list V := map snd m.

(** The representation invariant of a [Map]: no key occurs twice. *)
Definition wf (m : list (Z * V)) : Prop := NoDup (keys m).
End defs.
End JsMap.

(** ** JavaScript strings and truthiness *)

Definition is_whitespace (c : ascii) : bool :=
  let n := nat_of_ascii c in
  ((9 <=? n)%nat && (n <=? 13)%nat) || (n =? 32)%nat.

Fixpoint trimStart (s : string) : string :=
  match s with
  | EmptyString => EmptyString
  | String c s' => if is_whitespace c then trimStart s' else s
  end.

(** [String.prototype.trim] *)
Definition trim (s : string) : string :=
  String.rev (trimStart (String.rev (trimStart s))).

Definition lower_char (c : ascii) : ascii :=
  let n := nat_of_ascii c in
  if ((65 <=? n)%nat && (n <=? 90)%nat) then ascii_of_nat (n + 32) else c.

(** [String.prototype.toLowerCase] *)
Fixpoint toLowerCase (s : string) : string :=
  match s with
  | EmptyString => EmptyString
  | String c s' => String (lower_char c) (toLowerCase s')
  end.

(** A string is falsy exactly when it is empty. *)
Definition truthy_string (s : string) : bool :=
  match s with EmptyString => false | _ => true end.

(** [a || d] where [a : string | null | undefined] *)
Definition string_or (a : option string) (d : string) : string :=
  match a with
  | Some s => if truthy_string s then s else d
  | None => d
  end.

(** [a || null] where [a : string | null | undefined] *)
Definition string_or_null (a : option string) : option string :=
  match a with
  | Some s => if truthy_string s then Some s else None
  | None => None
  end.

(** A number is falsy exactly when it is [0] (ids are never [NaN]). *)
Definition truthy_number (n : Z) : bool := negb (Z.eqb n 0).

(** Truthiness of a [boolean | null] column. *)
Definition truthy_bool (b : option bool) : bool :=
  match b with Some true => true | _ => false end.

(** ** The schema ([@shared/schema])

    Each table is a module holding the record of its row type, so that a
    field reads [Thought.clinicId thought] next to a parameter [clinicId]. *)

Module User.
Record t := mk {
  id : Z;
  username : string;
  email : string;
  password : string;
  role : string;
  clinicId : option Z;
  createdAt : option Z
}.
End User.

Module InsertUser.
Record t := mk {
  username : string;
  email : string;
  password : string;
  role : option string;
  clinicId : option Z
}.
End InsertUser.

Module Clinic.
Record t := mk {
  id : Z;
  name : string;
  url : option string;
  logoUrl : option string;
  departments : option (list string);
  createdAt : option Z
}.

(** [{ ...clinic, departments: d }] *)
Definition with_departments (d : list string) (c : t) : t :=
  mk (id c) (name c) (url c) (logoUrl c) (Some d) (createdAt c).
End Clinic.

Module InsertClinic.
Record t := mk {
  name : string;
  url : option string;
  logoUrl : option string;
  departments : option (list string)
}.
End InsertClinic.

Module Thought.
Record t := mk {
  id : Z;
  title : string;
  content : string;
  category : string;
  department : option string;
  authorId : Z;
  clinicId : Z;
  isDeleted : option bool;
  deletedAt : option Z;
  deletedBy : option Z;
  editCount : option Z;
  lastEditedAt : option Z;
  lastEditedBy : option Z;
  isRead : option bool;
  readAt : option Z;
  createdAt : option Z
}.

(** [{ ...thought, department: d }] *)
Definition with_department (d : string) (x : t) : t :=
  mk (id x) (title x) (content x) (category x) (Some d) (authorId x)
     (clinicId x) (isDeleted x) (deletedAt x) (deletedBy x) (editCount x)
     (lastEditedAt x) (lastEditedBy x) (isRead x) (readAt x) (createdAt x).

(** [{ ...thought, readAt: d }] *)
Definition with_readAt (d : Z) (x : t) : t :=
  mk (id x) (title x) (content x) (category x) (department x) (authorId x)
     (clinicId x) (isDeleted x) (deletedAt x) (deletedBy x) (editCount x)
     (lastEditedAt x) (lastEditedBy x) (isRead x) (Some d) (createdAt x).
End Thought.

(** [InsertThought]: the columns of [thoughts] minus the omitted ones; a
    column with a default or a nullable column may be absent. *)
Module InsertThought.
Record t := mk {
  title : string;
  content : string;
  category : option string;
  department : option string;
  authorId : Z;
  clinicId : Z;
  isRead : option bool;
  readAt : option Z
}.
End InsertThought.

(** [Partial<InsertThought>]: [None] is an absent key; for a nullable
    column the inner option is the value ([null] or not). *)
Module ThoughtUpdates.
Record t := mk {
  title : option string;
  content : option string;
  category : option string;
  department : option (option string);
  authorId : option Z;
  clinicId : option Z;
  isRead : option (option bool);
  readAt : option (option Z)
}.
End ThoughtUpdates.

Inductive ChangeType := created | edited | deleted.

Definition ChangeType_eqb (a b : ChangeType) : bool :=
  match a, b with
  | created, created | edited, edited | deleted, deleted => true
  | _, _ => false
  end.

Module ThoughtHistory.
Record t := mk {
  id : Z;
  thoughtId : Z;
  title : option string;
  content : option string;
  category : option string;
  department : option string;
  editedBy : Z;
  editedAt : option Z;
  changeType : ChangeType
}.
End ThoughtHistory.

Module ThoughtWithAuthor.
Record t := mk {
  thought : Thought.t;
  author : User.t;
  deletedByUser : option User.t;
  lastEditedByUser : option User.t
}.
End ThoughtWithAuthor.

Module ThoughtHistoryWithUser.
Record t := mk {
  entry : ThoughtHistory.t;
  editedByUser : User.t
}.
End ThoughtHistoryWithUser.

(** ** The store and the monad of its methods *)

Record Storage := mkStorage {
  users : list (Z * User.t);
  clinics : list (Z * Clinic.t);
  thoughts : list (Z * Thought.t);
  thoughtHistory : list (Z * ThoughtHistory.t);
  currentUserId : Z;
  currentClinicId : Z;
  currentThoughtId : Z;
  currentHistoryId : Z
}.

(** [new MemStorage()] *)
Definition MemStorage_new : Storage := mkStorage [] [] [] [] 1 1 1 1.

Definition set_users (f : list (Z * User.t) → list (Z * User.t)) (s : Storage) : Storage :=
  mkStorage (f (users s)) (clinics s) (thoughts s) (thoughtHistory s)
    (currentUserId s) (currentClinicId s) (currentThoughtId s) (currentHistoryId s).

Definition set_clinics (f : list (Z * Clinic.t) → list (Z * Clinic.t)) (s : Storage) : Storage :=
  mkStorage (users s) (f (clinics s)) (thoughts s) (thoughtHistory s)
    (currentUserId s) (currentClinicId s) (currentThoughtId s) (currentHistoryId s).

Definition set_thoughts (f : list (Z * Thought.t) → list (Z * Thought.t)) (s : Storage) : Storage :=
  mkStorage (users s) (clinics s) (f (thoughts s)) (thoughtHistory s)
    (currentUserId s) (currentClinicId s) (currentThoughtId s) (currentHistoryId s).

Definition set_thoughtHistory
    (f : list (Z * ThoughtHistory.t) → list (Z * ThoughtHistory.t)) (s : Storage) : Storage :=
  mkStorage (users s) (clinics s) (thoughts s) (f (thoughtHistory s))
    (currentUserId s) (currentClinicId s) (currentThoughtId s) (currentHistoryId s).

Definition M (A : Type) : Type := Storage → A * Storage.

Definition ret {A} (a : A) : M A := λ s, (a, s).

Definition bind {A B} (m : M A) (f : A → M B) : M B :=
  λ s, let (a, s') := m s in f a s'.

(** Read a field of [this]. *)
Definition gets {A} (f : Storage → A) : M A := λ s, (f s, s).

(** Assign to a field of [this]. *)
Definition modify (f : Storage → Storage) : M unit := λ s, (tt, f s).

Declare Scope storage_scope.
Delimit Scope storage_scope with storage.
Notation "x <- m ;; k" := (bind m (λ x, k))
  (at level 100, m at next level, right associativity) : storage_scope.
Notation "m ;; k" := (bind m (λ _, k))
  (at level 100, right associativity) : storage_scope.
Local Open Scope storage_scope.

(** [this.currentXId++]: the value before the increment. *)
Definition next_userId : M Z :=
  λ s, (currentUserId s,
        mkStorage (users s) (clinics s) (thoughts s) (thoughtHistory s)
          (currentUserId s + 1) (currentClinicId s) (currentThoughtId s) (currentHistoryId s)).

Definition next_clinicId : M Z :=
  λ s, (currentClinicId s,
        mkStorage (users s) (clinics s) (thoughts s) (thoughtHistory s)
          (currentUserId s) (currentClinicId s + 1) (currentThoughtId s) (currentHistoryId s)).

Definition next_thoughtId : M Z :=
  λ s, (currentThoughtId s,
        mkStorage (users s) (clinics s) (thoughts s) (thoughtHistory s)
          (currentUserId s) (currentClinicId s) (currentThoughtId s + 1) (currentHistoryId s)).

Definition next_historyId : M Z :=
  λ s, (currentHistoryId s,
        mkStorage (users s) (clinics s) (thoughts s) (thoughtHistory s)
          (currentUserId s) (currentClinicId s) (currentThoughtId s) (currentHistoryId s + 1)).

(** [for (const x of l) { body }] over a snapshot array [l]. *)
Fixpoint for_of {A} (l : list A) (body : A → M unit) : M unit :=
  match l with
  | [] => ret tt
  | x :: l' => body x ;; for_of l' body
  end.

(** ** Array helpers *)

(** [Array.prototype.findIndex]; [None] stands for [-1]. *)
Fixpoint findIndex {A} (p : A → bool) (l : list A) : option nat :=
  match l with
  | [] => None
  | x :: l' => if p x then Some 0%nat else S <$> findIndex p l'
  end.

(** [l.some((x, i) => p x i)], the indices starting at [start]. *)
Fixpoint some_from {A} (start : nat) (p : A → nat → bool) (l : list A) : bool :=
  match l with
  | [] => false
  | x :: l' => p x start || some_from (S start) p l'
  end.

(** [l.filter((x, i) => p x i)], the indices starting at [start]. *)
Fixpoint filter_from {A} (start : nat) (p : A → nat → bool) (l : list A) : list A :=
  match l with
  | [] => []
  | x :: l' =>
      if p x start then x :: filter_from (S start) p l' else filter_from (S start) p l'
  end.

(** [a === b] for [a : string | null] and [b : string | undefined]: only
    two strings can be strictly equal. *)
Definition strict_eq_string (a b : option string) : bool :=
  match a, b with
  | Some x, Some y => String.eqb x y
  | _, _ => false
  end.

(** ** Clinic operations *)

Definition createClinic (now : Z) (insertClinic : InsertClinic.t) : M Clinic.t :=
  id <- next_clinicId ;;
  let clinic :=
    Clinic.mk id
      (InsertClinic.name insertClinic)
      (string_or_null (InsertClinic.url insertClinic))
      (string_or_null (InsertClinic.logoUrl insertClinic))
      (Some (default ["General"] (InsertClinic.departments insertClinic)))
      (Some now) in
  modify (set_clinics (JsMap.set (Clinic.id clinic) clinic)) ;;
  ret clinic.

(** ** Department operations *)

Definition getDepartmentsByClinic (clinicId : Z) : M (list string) :=
  clinic <- gets (λ s, JsMap.get clinicId (clinics s)) ;;
  ret (default ["General"] (clinic ≫= Clinic.departments)).

Definition addDepartmentToClinic (clinicId : Z) (department : string) : M bool :=
  clinic <- gets (λ s, JsMap.get clinicId (clinics s)) ;;
  match clinic with
  | None => ret false
  | Some clinic =>
      let trimmedDepartment := trim department in
      if negb (truthy_string trimmedDepartment) then ret false else
      let departments := default [] (Clinic.departments clinic) in
      let departmentExists :=
        existsb (λ d, String.eqb (toLowerCase d) (toLowerCase trimmedDepartment))
                departments in
      if departmentExists then ret false else
      let updatedDepartments := departments ++ [trimmedDepartment] in
      let updatedClinic := Clinic.with_departments updatedDepartments clinic in
      modify (set_clinics (JsMap.set clinicId updatedClinic)) ;;
      ret true
  end.

Definition updateDepartmentInClinic
    (clinicId : Z) (oldDepartment newDepartment : string) : M bool :=
  clinic <- gets (λ s, JsMap.get clinicId (clinics s)) ;;
  match clinic with
  | None => ret false
  | Some clinic =>
      let trimmedOld := trim oldDepartment in
      let trimmedNew := trim newDepartment in
      if negb (truthy_string trimmedOld) || negb (truthy_string trimmedNew)
      then ret false else
      let departments := default [] (Clinic.departments clinic) in
      match findIndex (λ d, String.eqb (toLowerCase d) (toLowerCase trimmedOld))
                      departments with
      | None => ret false
      | Some oldIndex =>
          let newExists :=
            some_from 0
              (λ d i, negb (Nat.eqb i oldIndex)
                      && String.eqb (toLowerCase d) (toLowerCase trimmedNew))
              departments in
          if newExists then ret false else
          let updatedDepartments := <[oldIndex := trimmedNew]> departments in
          entries <- gets thoughts ;;
          for_of entries (λ '(thoughtId, thought),
            if strict_eq_string (Thought.department thought) (departments !! oldIndex)
               && Z.eqb (Thought.clinicId thought) clinicId
            then modify (set_thoughts
                   (JsMap.set thoughtId (Thought.with_department trimmedNew thought)))
            else ret tt) ;;
          let updatedClinic := Clinic.with_departments updatedDepartments clinic in
          modify (set_clinics (JsMap.set clinicId updatedClinic)) ;;
          ret true
      end
  end.

Definition removeDepartmentFromClinic (clinicId : Z) (department : string) : M bool :=
  clinic <- gets (λ s, JsMap.get clinicId (clinics s)) ;;
  match clinic with
  | None => ret false
  | Some clinic =>
      let trimmedDepartment := trim department in
      if negb (truthy_string trimmedDepartment) then ret false else
      let departments := default [] (Clinic.departments clinic) in
      match findIndex (λ d, String.eqb (toLowerCase d) (toLowerCase trimmedDepartment))
                      departments with
      | None => ret false
      | Some index =>
          if (length departments <=? 1)%nat then ret false else
          let departmentToRemove := departments !! index in
          let updatedDepartments :=
            filter_from 0 (λ _ i, negb (Nat.eqb i index)) departments in
          entries <- gets thoughts ;;
          for_of entries (λ '(thoughtId, thought),
            if strict_eq_string (Thought.department thought) departmentToRemove
               && Z.eqb (Thought.clinicId thought) clinicId
            then modify (set_thoughts
                   (JsMap.set thoughtId
                      (Thought.with_department
                         (string_or (updatedDepartments !! 0%nat) "General") thought)))
            else ret tt) ;;
          let updatedClinic := Clinic.with_departments updatedDepartments clinic in
          modify (set_clinics (JsMap.set clinicId updatedClinic)) ;;
          ret true
      end
  end.

(** ** User operations *)

(** [a || null] where [a : number | null | undefined] *)
Definition number_or_null (a : option Z) : option Z :=
  match a with
  | Some n => if truthy_number n then Some n else None
  | None => None
  end.

Definition createUser (now : Z) (insertUser : InsertUser.t) : M User.t :=
  id <- next_userId ;;
  let user :=
    User.mk id
      (InsertUser.username insertUser)
      (InsertUser.email insertUser)
      (InsertUser.password insertUser)
      (string_or (InsertUser.role insertUser) "user")
      (number_or_null (InsertUser.clinicId insertUser))
      (Some now) in
  modify (set_users (JsMap.set (User.id user) user)) ;;
  ret user.

Definition deleteUser (id : Z) : M bool :=
  present <- gets (λ s, JsMap.has id (users s)) ;;
  modify (set_users (JsMap.delete id)) ;;
  ret present.

(** ** Dates

    A [Date] is its time value; [None] is the time value [NaN] of an invalid
    date. The host time zone is a fixed offset [tz] in milliseconds east of
    UTC (local time = UTC + [tz]); daylight saving is not modelled. *)

Definition msPerDay : Z := 86400000.

Definition digit (c : ascii) : option Z :=
  let n := Z.of_nat (nat_of_ascii c) in
  if (48 <=? n) && (n <=? 57) then Some (n - 48) else None.

Definition isLeapYear (y : Z) : bool :=
  ((y mod 4 =? 0) && negb (y mod 100 =? 0)) || (y mod 400 =? 0).

Definition daysInMonth (y m : Z) : Z :=
  if m =? 2 then (if isLeapYear y then 29 else 28)
  else if (m =? 4) || (m =? 6) || (m =? 9) || (m =? 11) then 30
  else 31.

(** Days from 1970-01-01 to the civil date [y]-[m]-[d] (proleptic
    Gregorian calendar). *)
Definition daysFromCivil (y m d : Z) : Z :=
  let y' := if m <=? 2 then y - 1 else y in
  let era := y' / 400 in
  let yoe := y' - era * 400 in
  let mp := if 2 <? m then m - 3 else m + 9 in
  let doy := (153 * mp + 2) / 5 + d - 1 in
  let doe := yoe * 365 + yoe / 4 - yoe / 100 + doy in
  era * 146097 + doe - 719468.

(** [new Date(s)] for the date-only form [YYYY-MM-DD], which is what the
    date inputs of the dashboard send: midnight UTC of that day. Any other
    string is taken as an invalid date here. *)
Definition parseDate (s : string) : option Z :=
  match s with
  | String y1 (String y2 (String y3 (String y4 (String "-"
      (String m1 (String m2 (String "-" (String d1 (String d2 EmptyString))))))))) =>
      a ← digit y1; b ← digit y2; c ← digit y3; d ← digit y4;
      e ← digit m1; f ← digit m2; g ← digit d1; h ← digit d2;
      let y := 1000 * a + 100 * b + 10 * c + d in
      let m := 10 * e + f in
      let dd := 10 * g + h in
      if (1 <=? m) && (m <=? 12) && (1 <=? dd) && (dd <=? daysInMonth y m)
      then Some (daysFromCivil y m dd * msPerDay)
      else None
  | _ => None
  end.

(** [date.setHours(23, 59, 59, 999)]: the last millisecond of the local
    calendar day that contains [t]. *)
Definition setHours_endOfDay (tz : Z) (t : Z) : Z :=
  ((t + tz) / msPerDay) * msPerDay + (23 * 3600000 + 59 * 60000 + 59 * 1000 + 999) - tz.

(** [new Date(d || 0).getTime()] for a stored [Date | null] *)
Definition timeOf (d : option Z) : Z := default 0 d.

(** [a >= b] and [a <= b] on dates, [b] possibly invalid. *)
Definition date_ge (a : Z) (b : option Z) : bool :=
  match b with Some y => y <=? a | None => false end.

Definition date_le (a : Z) (b : option Z) : bool :=
  match b with Some y => a <=? y | None => false end.

(** ** Sorting and loops that build arrays *)

Fixpoint insert_sorted {A} (cmp : A → A → Z) (x : A) (l : list A) : list A :=
  match l with
  | [] => [x]
  | y :: l' => if 0 <? cmp x y then y :: insert_sorted cmp x l' else x :: y :: l'
  end.

(** [Array.prototype.sort(cmp)]: a stable sort; [cmp a b > 0] puts [b]
    first. *)
Definition Array_sort {A} (cmp : A → A → Z) (l : list A) : list A :=
  foldr (insert_sorted cmp) [] l.

(** [const result = []; for (const x of l) { ... result.push(y) ... }]:
    the body says what is pushed for [x], if anything. *)
Fixpoint for_push {A B} (l : list A) (body : A → M (option B)) : M (list B) :=
  match l with
  | [] => ret []
  | x :: l' =>
      pushed <- body x ;;
      rest <- for_push l' body ;;
      ret (match pushed with Some y => y :: rest | None => rest end)
  end.

(** ** Thought operations *)

Definition createHistoryEntry
    (now : Z) (thoughtId : Z) (thought : Thought.t) (userId : Z)
    (changeType : ChangeType) : M unit :=
  id <- next_historyId ;;
  let historyEntry :=
    ThoughtHistory.mk id thoughtId
      (Some (Thought.title thought))
      (Some (Thought.content thought))
      (Some (Thought.category thought))
      (Thought.department thought)
      userId (Some now) changeType in
  modify (set_thoughtHistory (JsMap.set (ThoughtHistory.id historyEntry) historyEntry)).

(** [now] is the clock at [createdAt: new Date()], [now'] the clock when
    the history entry is written. *)
Definition createThought
    (now now' : Z) (insertThought : InsertThought.t) (userId : Z) : M Thought.t :=
  id <- next_thoughtId ;;
  let thought :=
    Thought.mk id
      (InsertThought.title insertThought)
      (InsertThought.content insertThought)
      (string_or (InsertThought.category insertThought) "General")
      (string_or_null (InsertThought.department insertThought))
      (InsertThought.authorId insertThought)
      (InsertThought.clinicId insertThought)
      (Some false) None None (Some 0) None None (Some false) None (Some now) in
  modify (set_thoughts (JsMap.set (Thought.id thought) thought)) ;;
  createHistoryEntry now' (Thought.id thought) thought userId created ;;
  ret thought.

(** [{ ...thought, ...updates }] *)
Definition spread_updates (thought : Thought.t) (updates : ThoughtUpdates.t) : Thought.t :=
  Thought.mk (Thought.id thought)
    (default (Thought.title thought) (ThoughtUpdates.title updates))
    (default (Thought.content thought) (ThoughtUpdates.content updates))
    (default (Thought.category thought) (ThoughtUpdates.category updates))
    (default (Thought.department thought) (ThoughtUpdates.department updates))
    (default (Thought.authorId thought) (ThoughtUpdates.authorId updates))
    (default (Thought.clinicId thought) (ThoughtUpdates.clinicId updates))
    (Thought.isDeleted thought) (Thought.deletedAt thought) (Thought.deletedBy thought)
    (Thought.editCount thought) (Thought.lastEditedAt thought)
    (Thought.lastEditedBy thought)
    (default (Thought.isRead thought) (ThoughtUpdates.isRead updates))
    (default (Thought.readAt thought) (ThoughtUpdates.readAt updates))
    (Thought.createdAt thought).

Definition updateThought
    (now now' : Z) (id : Z) (updates : ThoughtUpdates.t) (userId : Z)
    : M (option Thought.t) :=
  thought <- gets (λ s, JsMap.get id (thoughts s)) ;;
  match thought with
  | None => ret None
  | Some thought =>
      let merged := spread_updates thought updates in
      let updatedThought :=
        Thought.mk (Thought.id merged) (Thought.title merged) (Thought.content merged)
          (Thought.category merged) (Thought.department merged)
          (Thought.authorId merged) (Thought.clinicId merged)
          (Thought.isDeleted merged) (Thought.deletedAt merged) (Thought.deletedBy merged)
          (Some (default 0 (Thought.editCount thought) + 1))
          (Some now) (Some userId)
          (Thought.isRead merged) (Thought.readAt merged) (Thought.createdAt merged) in
      modify (set_thoughts (JsMap.set id updatedThought)) ;;
      createHistoryEntry now' id updatedThought userId edited ;;
      ret (Some updatedThought)
  end.

Definition deleteThought (now now' : Z) (id : Z) (userId : Z) : M bool :=
  thought <- gets (λ s, JsMap.get id (thoughts s)) ;;
  match thought with
  | None => ret false
  | Some thought =>
      let deletedThought :=
        Thought.mk (Thought.id thought) (Thought.title thought) (Thought.content thought)
          (Thought.category thought) (Thought.department thought)
          (Thought.authorId thought) (Thought.clinicId thought)
          (Some true) (Some now) (Some userId)
          (Thought.editCount thought) (Thought.lastEditedAt thought)
          (Thought.lastEditedBy thought)
          (Thought.isRead thought) (Thought.readAt thought) (Thought.createdAt thought) in
      modify (set_thoughts (JsMap.set id deletedThought)) ;;
      createHistoryEntry now' id deletedThought userId deleted ;;
      ret true
  end.

Definition markThoughtAsRead (now : Z) (thoughtId : Z) : M bool :=
  thought <- gets (λ s, JsMap.get thoughtId (thoughts s)) ;;
  match thought with
  | None => ret false
  | Some thought =>
      let updatedThought :=
        Thought.mk (Thought.id thought) (Thought.title thought) (Thought.content thought)
          (Thought.category thought) (Thought.department thought)
          (Thought.authorId thought) (Thought.clinicId thought)
          (Thought.isDeleted thought) (Thought.deletedAt thought)
          (Thought.deletedBy thought)
          (Thought.editCount thought) (Thought.lastEditedAt thought)
          (Thought.lastEditedBy thought)
          (Some true) (Some now) (Thought.createdAt thought) in
      modify (set_thoughts (JsMap.set thoughtId updatedThought)) ;;
      ret true
  end.

(** The placeholder for a user that no longer exists. *)
Definition unknownUser (id : Z) : User.t :=
  User.mk id ("Unknown User " +:+ pretty id) "unknown@example.com" "" "user" None None.

(** [now] is [Date.now()] at the point where the fallback entry is built. *)
Definition getThoughtHistory (now : Z) (thoughtId : Z)
    : M (list ThoughtHistoryWithUser.t) :=
  all <- gets (λ s, JsMap.values (thoughtHistory s)) ;;
  let historyEntries :=
    Array_sort
      (λ a b, timeOf (ThoughtHistory.editedAt b) - timeOf (ThoughtHistory.editedAt a))
      (List.filter (λ entry, ThoughtHistory.thoughtId entry =? thoughtId) all) in
  result <- for_push historyEntries (λ entry,
    editedByUser <- gets (λ s, JsMap.get (ThoughtHistory.editedBy entry) (users s)) ;;
    ret (Some (ThoughtHistoryWithUser.mk entry
                 (default (unknownUser (ThoughtHistory.editedBy entry)) editedByUser)))) ;;
  if (length result =? 0)%nat then
    currentThought <- gets (λ s, JsMap.get thoughtId (thoughts s)) ;;
    match currentThought with
    | Some currentThought =>
        currentUser <- gets (λ s, JsMap.get (Thought.authorId currentThought) (users s)) ;;
        ret (result ++
          [ThoughtHistoryWithUser.mk
             (ThoughtHistory.mk now thoughtId
                (Some (Thought.title currentThought))
                (Some (Thought.content currentThought))
                (Some (Thought.category currentThought))
                (Thought.department currentThought)
                (Thought.authorId currentThought)
                (Thought.createdAt currentThought)
                created)
             (default (unknownUser (Thought.authorId currentThought)) currentUser)])
    | None => ret result
    end
  else ret result.

Module Filters.
Record t := mk {
  startDate : option string;
  endDate : option string;
  userId : option Z;
  department : option string;
  includeRead : option bool
}.
End Filters.

(** The [if (filters) { ... }] block of [getThoughtsByClinic]. *)
Definition apply_filters (tz : Z) (filters : Filters.t) (thoughtsArray : list Thought.t)
    : list Thought.t :=
  let thoughtsArray :=
    match Filters.startDate filters with
    | Some s =>
        if truthy_string s then
          let startDate := parseDate s in
          List.filter (λ thought, date_ge (timeOf (Thought.createdAt thought)) startDate)
            thoughtsArray
        else thoughtsArray
    | None => thoughtsArray
    end in
  let thoughtsArray :=
    match Filters.endDate filters with
    | Some s =>
        if truthy_string s then
          let endDate := setHours_endOfDay tz <$> parseDate s in
          List.filter (λ thought, date_le (timeOf (Thought.createdAt thought)) endDate)
            thoughtsArray
        else thoughtsArray
    | None => thoughtsArray
    end in
  let thoughtsArray :=
    match Filters.userId filters with
    | Some userId =>
        if truthy_number userId then
          List.filter (λ thought, Thought.authorId thought =? userId) thoughtsArray
        else thoughtsArray
    | None => thoughtsArray
    end in
  let thoughtsArray :=
    match Filters.department filters with
    | Some department =>
        if truthy_string department then
          List.filter
            (λ thought, strict_eq_string (Thought.department thought) (Some department))
            thoughtsArray
        else thoughtsArray
    | None => thoughtsArray
    end in
  match Filters.includeRead filters with
  | Some false =>
      List.filter (λ thought, negb (truthy_bool (Thought.isRead thought))) thoughtsArray
  | _ => thoughtsArray
  end.

(** [id ? this.users.get(id) : null], then [|| null] *)
Definition lookup_optional_user (id : option Z) : M (option User.t) :=
  match id with
  | Some id =>
      if truthy_number id then gets (λ s, JsMap.get id (users s)) else ret None
  | None => ret None
  end.

Definition getThoughtsByClinic
    (tz : Z) (clinicId : Z) (includeDeleted : bool) (filters : option Filters.t)
    : M (list ThoughtWithAuthor.t) :=
  all <- gets (λ s, JsMap.values (thoughts s)) ;;
  let thoughtsArray :=
    List.filter
      (λ thought, includeDeleted || negb (truthy_bool (Thought.isDeleted thought)))
      (List.filter (λ thought, Thought.clinicId thought =? clinicId) all) in
  let thoughtsArray :=
    match filters with
    | Some filters => apply_filters tz filters thoughtsArray
    | None => thoughtsArray
    end in
  thoughtsWithAuthors <- for_push thoughtsArray (λ thought,
    author <- gets (λ s, JsMap.get (Thought.authorId thought) (users s)) ;;
    deletedByUser <- lookup_optional_user (Thought.deletedBy thought) ;;
    lastEditedByUser <- lookup_optional_user (Thought.lastEditedBy thought) ;;
    ret (match author with
         | Some author =>
             Some (ThoughtWithAuthor.mk thought author deletedByUser lastEditedByUser)
         | None => None
         end)) ;;
  ret (Array_sort
         (λ a b, timeOf (Thought.createdAt (ThoughtWithAuthor.thought b))
                 - timeOf (Thought.createdAt (ThoughtWithAuthor.thought a)))
         thoughtsWithAuthors).

(** ** The remaining methods of [MemStorage] *)

Module UserWithClinic.
Record t := mk {
  user : User.t;
  clinic : option Clinic.t
}.
End UserWithClinic.

(** [Partial<InsertClinic>]: [None] is an absent key; for a nullable column
    the inner option is the value. *)
Module ClinicUpdates.
Record t := mk {
  name : option string;
  url : option (option string);
  logoUrl : option (option string);
  departments : option (option (list string))
}.
End ClinicUpdates.

Definition hasAnyUsers : M bool :=
  gets (λ s, (0 <? length (users s))%nat).

(** [now] is the clock when the clinic is built, [now'] when the user is. *)
Definition setupFirstAdmin (now now' : Z) (user : InsertUser.t) (clinic : InsertClinic.t)
    : M (User.t * Clinic.t) :=
  clinicId <- next_clinicId ;;
  let clinic :=
    Clinic.mk clinicId
      (InsertClinic.name clinic)
      (string_or_null (InsertClinic.url clinic))
      (string_or_null (InsertClinic.logoUrl clinic))
      (Some (default ["General"; "Administration"] (InsertClinic.departments clinic)))
      (Some now) in
  modify (set_clinics (JsMap.set (Clinic.id clinic) clinic)) ;;
  userId <- next_userId ;;
  let user :=
    User.mk userId
      (InsertUser.username user)
      (InsertUser.email user)
      (InsertUser.password user)
      "admin"
      (Some (Clinic.id clinic))
      (Some now') in
  modify (set_users (JsMap.set (User.id user) user)) ;;
  ret (user, clinic).

Definition getUser (id : Z) : M (option User.t) :=
  gets (λ s, JsMap.get id (users s)).

(** [Array.prototype.find] is [List.find]. *)
Definition getUserByUsername (username : string) : M (option User.t) :=
  gets (λ s, List.find (λ user, String.eqb (User.username user) username)
               (JsMap.values (users s))).

Definition getUserWithClinic (id : Z) : M (option UserWithClinic.t) :=
  user <- gets (λ s, JsMap.get id (users s)) ;;
  match user with
  | None => ret None
  | Some user =>
      clinic <- match User.clinicId user with
                | Some clinicId =>
                    if truthy_number clinicId
                    then gets (λ s, JsMap.get clinicId (clinics s))
                    else ret None
                | None => ret None
                end ;;
      ret (Some (UserWithClinic.mk user clinic))
  end.

(** [user.clinicId === clinicId] for [user.clinicId : number | null] *)
Definition getUsersByClinic (clinicId : Z) : M (list User.t) :=
  gets (λ s, List.filter
               (λ user, match User.clinicId user with
                        | Some c => c =? clinicId
                        | None => false
                        end)
               (JsMap.values (users s))).

Definition getClinic (id : Z) : M (option Clinic.t) :=
  gets (λ s, JsMap.get id (clinics s)).

(** [{ ...clinic, ...updates }] *)
Definition spread_clinic_updates (clinic : Clinic.t) (updates : ClinicUpdates.t)
    : Clinic.t :=
  Clinic.mk (Clinic.id clinic)
    (default (Clinic.name clinic) (ClinicUpdates.name updates))
    (default (Clinic.url clinic) (ClinicUpdates.url updates))
    (default (Clinic.logoUrl clinic) (ClinicUpdates.logoUrl updates))
    (default (Clinic.departments clinic) (ClinicUpdates.departments updates))
    (Clinic.createdAt clinic).

Definition updateClinic (id : Z) (updates : ClinicUpdates.t) : M (option Clinic.t) :=
  clinic <- gets (λ s, JsMap.get id (clinics s)) ;;
  match clinic with
  | None => ret None
  | Some clinic =>
      let updatedClinic := spread_clinic_updates clinic updates in
      modify (set_clinics (JsMap.set id updatedClinic)) ;;
      ret (Some updatedClinic)
  end.

Definition deleteClinic (id : Z) : M bool :=
  present <- gets (λ s, JsMap.has id (clinics s)) ;;
  modify (set_clinics (JsMap.delete id)) ;;
  ret present.

Definition getThought (id : Z) : M (option Thought.t) :=
  gets (λ s, JsMap.get id (thoughts s)).

Definition getUnreadThoughtsCount (clinicId : Z) : M nat :=
  gets (λ s, length (List.filter
                       (λ thought,
                          (Thought.clinicId thought =? clinicId)
                          && negb (truthy_bool (Thought.isDeleted thought))
                          && negb (truthy_bool (Thought.isRead thought)))
                       (JsMap.values (thoughts s)))).

(** ** Running the methods *)

Definition exec {A} (m : M A) (s : Storage) : Storage := snd (m s).
Definition eval {A} (m : M A) (s : Storage) : A := fst (m s).

(** A call of one of the methods that write thoughts or departments. *)
Inductive call :=
| AddDepartment (clinicId : Z) (department : string)
| UpdateDepartment (clinicId : Z) (oldDepartment newDepartment : string)
| RemoveDepartment (clinicId : Z) (department : string)
| CreateThought (now now' : Z) (insertThought : InsertThought.t) (userId : Z)
| UpdateThought (now now' : Z) (id : Z) (updates : ThoughtUpdates.t) (userId : Z)
| DeleteThought (now now' : Z) (id : Z) (userId : Z)
| MarkThoughtAsRead (now : Z) (thoughtId : Z).

Definition step (c : call) (s : Storage) : Storage :=
  match c with
  | AddDepartment clinicId department =>
      exec (addDepartmentToClinic clinicId department) s
  | UpdateDepartment clinicId oldDepartment newDepartment =>
      exec (updateDepartmentInClinic clinicId oldDepartment newDepartment) s
  | RemoveDepartment clinicId department =>
      exec (removeDepartmentFromClinic clinicId department) s
  | CreateThought now now' insertThought userId =>
      exec (createThought now now' insertThought userId) s
  | UpdateThought now now' id updates userId =>
      exec (updateThought now now' id updates userId) s
  | DeleteThought now now' id userId =>
      exec (deleteThought now now' id userId) s
  | MarkThoughtAsRead now thoughtId =>
      exec (markThoughtAsRead now thoughtId) s
  end.

(** The calls are made one after the other, the first of the list first. *)
Definition run (calls : list call) (s : Storage) : Storage :=
  foldl (λ s c, step c s) s calls.


(** ** Notions used in the statements *)

(** A computation that only reads. *)
Definition read_only {A} (m : M A) : Prop := ∀ s, exec m s = s.

(** The clinic exists and has at least one department. *)
Definition has_department (clinicId : Z) (s : Storage) : Prop :=
  ∃ clinic, JsMap.get clinicId (clinics s) = Some clinic
            ∧ (1 ≤ length (default [] (Clinic.departments clinic)))%nat.

(** What a cascade does to the table of thoughts: every thought that
    passes [test] is filed under [name], in place. *)
Definition refile (test : Thought.t → bool) (name : string)
    (m : list (Z * Thought.t)) : list (Z * Thought.t) :=
  map (λ '(k, thought),
         (k, if test thought then Thought.with_department name thought else thought)) m.

(** The number of history entries of a thought that record an edit. *)
Definition edited_entries (thoughtId : Z) (s : Storage) : nat :=
  length (List.filter
            (λ entry, (ThoughtHistory.thoughtId entry =? thoughtId)
                      && ChangeType_eqb (ThoughtHistory.changeType entry) edited)
            (JsMap.values (thoughtHistory s))).

(** The stored history entries of a thought, in insertion order. *)
Definition stored_entries (thoughtId : Z) (s : Storage) : list ThoughtHistory.t :=
  List.filter (λ entry, ThoughtHistory.thoughtId entry =? thoughtId)
    (JsMap.values (thoughtHistory s)).

(** The invariant that ties [editCount] to the history: the table of
    thoughts is a well-formed map, every thought has an id below the counter
    and an [editCount] equal to the number of its [edited] entries, and the
    history only mentions ids below the counters. *)
Definition history_consistent (s : Storage) : Prop :=
  JsMap.wf (thoughts s)
  ∧ (∀ k thought,
       JsMap.get k (thoughts s) = Some thought →
       k < currentThoughtId s
       ∧ Thought.editCount thought = Some (Z.of_nat (edited_entries k s)))
  ∧ (∀ entry,
       entry ∈ JsMap.values (thoughtHistory s) →
       ThoughtHistory.thoughtId entry < currentThoughtId s)
  ∧ (∀ k, k ∈ JsMap.keys (thoughtHistory s) → k < currentHistoryId s).

(** The user behind an optional id ([deletedBy], [lastEditedBy]), if it
    is set and still exists. *)
Definition optional_user (s : Storage) (id : option Z) : option User.t :=
  match id with
  | Some id => if truthy_number id then JsMap.get id (users s) else None
  | None => None
  end.

(** A thought joined with its author, when the author exists. *)
Definition with_author (s : Storage) (thought : Thought.t) : option ThoughtWithAuthor.t :=
  match JsMap.get (Thought.authorId thought) (users s) with
  | Some author =>
      Some (ThoughtWithAuthor.mk thought author
              (optional_user s (Thought.deletedBy thought))
              (optional_user s (Thought.lastEditedBy thought)))
  | None => None
  end.




(** ** Sample stores *)

Module Samples.
Definition aThought (department : option string) (authorId clinicId : Z)
    : InsertThought.t :=
  InsertThought.mk "Waiting room" "Too cold" None department authorId clinicId None None.

Definition aUser : InsertUser.t :=
  InsertUser.mk "nora" "nora@example.com" "secret" None (Some 1).

(** A store in which thought 1 was read at time 10. *)
Definition read_once : Storage :=
  exec (markThoughtAsRead 10 1)
    (exec (createThought 1 2 (aThought None 1 1) 1) MemStorage_new).

(** A store whose only clinic was created with an empty department
    array. *)
Definition empty_departments : Storage :=
  exec (createClinic 1 (InsertClinic.mk "North" None None (Some []))) MemStorage_new.

(** Clinic 1 with two departments, clinic 2 with one of the same name, a
    user, and a Cardiology thought in each clinic. *)
Definition two_clinics : Storage :=
  exec (createThought 9 10 (aThought (Some "Cardiology") 1 2) 1)
    (exec (createThought 7 8 (aThought (Some "Cardiology") 1 1) 1)
       (exec (createUser 6 aUser)
          (exec (createClinic 5 (InsertClinic.mk "South" None None (Some ["Cardiology"])))
             (exec (createClinic 4
                      (InsertClinic.mk "North" None None (Some ["General"; "Cardiology"])))
                MemStorage_new)))).


(** 2024-01-15T00:00:00.000Z *)
Definition mid_january : Z := 1705276800000.

(** A thought of clinic 1 written in mid January by user 1. *)
Definition january_thought : Storage :=
  exec (createThought mid_january mid_january (aThought None 1 1) 1)
    (exec (createUser 6 aUser) MemStorage_new).

(** The same store after user 1 was deleted. *)
Definition january_orphan : Storage := exec (deleteUser 1) january_thought.

(** A thought that has no history entry (an imported row). *)
Definition imported_thought : Storage :=
  set_thoughtHistory (λ _, []) january_thought.
End Samples.

(** ** Notions used in the further statements *)


(** Department names none of which is the empty string. *)
Definition nonempty_names (l : list string) : Prop := Forall (λ d, d ≠ "") l.

(** Department names without surrounding whitespace. *)
Definition trimmed_names (l : list string) : Prop := Forall (λ d, trim d = d) l.

(** The department list of every clinic of the store satisfies [P]. *)
Definition every_department_list (P : list string → Prop) (s : Storage) : Prop :=
  ∀ clinicId clinic,
    JsMap.get clinicId (clinics s) = Some clinic →
    P (default [] (Clinic.departments clinic)).



(** The thoughts that [getUnreadThoughtsCount] counts for a clinic. *)
Definition counts_as_unread (clinicId : Z) (thought : Thought.t) : bool :=
  (Thought.clinicId thought =? clinicId)
  && negb (truthy_bool (Thought.isDeleted thought))
  && negb (truthy_bool (Thought.isRead thought)).

(** The filters with only [includeRead = false] set. *)
Definition unread_only : Filters.t := Filters.mk None None None None (Some false).

(** ** Tactics *)

(** Unfolds the monad. *)
Ltac run_monad :=
  unfold exec, eval, bind, ret, gets, modify in *; simpl in *.

(** Unfolds a method down to the store it leaves. *)
Ltac unfold_method :=
  unfold createThought, updateThought, deleteThought, markThoughtAsRead,
    createHistoryEntry, next_thoughtId, next_historyId,
    set_thoughts, set_thoughtHistory, set_clinics in *;
  run_monad.

(** Name the store after the loop in the goal and keep what [frame] says
    about it. *)
Tactic Notation "loop_frame" uconstr(frame) ident(H) :=
  match goal with
  | |- context [for_of ?l ?b ?s] =>
      pose proof (frame l b s) as H; unfold exec in H;
      let r := fresh "r" in
      remember (for_of l b s) as r in *;
      destruct r as [[] ?]; simpl in H |- *
  end.


(** Goes through the clinics of a closed store, given [H : (k, c) ∈ clinics
    store]. *)
Ltac clinics_cases store H tac :=
  let l := eval vm_compute in (clinics store) in
  change (clinics store) with l in H;
  repeat (apply elem_of_cons in H as [[= -> ->]|H]; [tac|]);
  by apply elem_of_nil in H.

(** * Properties *)

(** ** Facts about [JsMap] *)

Module JsMapFacts.
Section facts.
Context {V : Type}.
Implicit Types (k : Z) (v : V) (m : list (Z * V)).

Lemma get_set_eq k v m : JsMap.get k (JsMap.set k v m) = Some v.
Proof.
  induction m as [|[k' v'] m IH]; simpl.
  - by rewrite Z.eqb_refl.
  - destruct (Z.eqb_spec k' k) as [->|Hne]; simpl.
    + by rewrite Z.eqb_refl.
    + by destruct (Z.eqb_spec k' k).
Qed.

Lemma get_set_ne k k' v m : k ≠ k' → JsMap.get k' (JsMap.set k v m) = JsMap.get k' m.
Proof.
  intros Hne. induction m as [|[k0 v0] m IH]; simpl.
  - by destruct (Z.eqb_spec k k').
  - destruct (Z.eqb_spec k0 k) as [->|Hk]; simpl.
    + by destruct (Z.eqb_spec k k').
    + by rewrite IH.
Qed.

Lemma get_elem_of k v m : JsMap.get k m = Some v → (k, v) ∈ m.
Proof.
  induction m as [|[k' v'] m IH]; simpl; [done|].
  destruct (Z.eqb_spec k' k) as [->|Hne].
  - intros [= ->]. left.
  - intros H. right. by apply IH.
Qed.

Lemma get_None_keys k m : JsMap.get k m = None ↔ k ∉ JsMap.keys m.
Proof.
  unfold JsMap.keys. induction m as [|[k' v'] m IH]; simpl.
  - split; [intros _; apply not_elem_of_nil | done].
  - rewrite not_elem_of_cons. destruct (Z.eqb_spec k' k) as [->|Hne].
    + split; [done | by intros [? _]].
    + rewrite IH. split; [by split | by intros [_ ?]].
Qed.

Lemma elem_of_get k v m : JsMap.wf m → (k, v) ∈ m → JsMap.get k m = Some v.
Proof.
  unfold JsMap.wf, JsMap.keys. induction m as [|[k' v'] m IH]; simpl.
  - intros _ H. by apply elem_of_nil in H.
  - rewrite NoDup_cons. intros [Hk' Hm] [Heq|Hin]%elem_of_cons.
    + injection Heq as -> ->. by rewrite Z.eqb_refl.
    + destruct (Z.eqb_spec k' k) as [->|Hne]; [|by apply IH].
      exfalso. apply Hk'. apply (list_elem_of_fmap_2 fst) in Hin. done.
Qed.

(** Setting a fresh key appends the entry. *)
Lemma set_fresh k v m : JsMap.get k m = None → JsMap.set k v m = m ++ [(k, v)].
Proof.
  induction m as [|[k' v'] m IH]; simpl; [done|].
  destruct (Z.eqb_spec k' k); [done|]. intros H. by rewrite IH.
Qed.

(** Setting a present key replaces its entry where it stands. *)
Lemma set_middle k v v0 m1 m2 :
  k ∉ JsMap.keys m1 →
  JsMap.set k v (m1 ++ (k, v0) :: m2) = m1 ++ (k, v) :: m2.
Proof.
  unfold JsMap.keys. induction m1 as [|[k' v'] m1 IH]; simpl.
  - intros _. by rewrite Z.eqb_refl.
  - rewrite not_elem_of_cons. intros [Hne Hk].
    destruct (Z.eqb_spec k' k); [congruence|]. by rewrite IH.
Qed.

Lemma elem_of_set k v k' v' m :
  (k', v') ∈ JsMap.set k v m → (k', v') = (k, v) ∨ (k', v') ∈ m.
Proof.
  induction m as [|[k0 v0] m IH]; simpl.
  - intros ?%list_elem_of_singleton. by left.
  - destruct (Z.eqb_spec k0 k) as [->|Hne].
    + intros [->|?]%elem_of_cons; [by left|]. right. by right.
    + intros [->|?]%elem_of_cons; [right; left|].
      destruct IH as [?|?]; [done|by left|]. right. by right.
Qed.

Lemma keys_set k v m :
  JsMap.keys (JsMap.set k v m)
  = if JsMap.has k m then JsMap.keys m else JsMap.keys m ++ [k].
Proof.
  unfold JsMap.keys, JsMap.has. induction m as [|[k' v'] m IH]; simpl; [done|].
  destruct (Z.eqb_spec k' k) as [->|Hne]; simpl; [done|].
  rewrite IH. by destruct (JsMap.get k m).
Qed.

Lemma wf_set k v m : JsMap.wf m → JsMap.wf (JsMap.set k v m).
Proof.
  unfold JsMap.wf. rewrite keys_set. unfold JsMap.has.
  destruct (JsMap.get k m) eqn:Hg; [done|].
  intros Hm. apply NoDup_app. split; [done|]. split.
  - intros x Hx ->%list_elem_of_singleton. by apply get_None_keys in Hg.
  - apply NoDup_singleton.
Qed.

Lemma wf_delete k m : JsMap.wf m → JsMap.wf (JsMap.delete k m).
Proof.
  unfold JsMap.wf, JsMap.keys. induction m as [|[k' v'] m IH]; simpl; [done|].
  rewrite NoDup_cons. intros [Hk' Hm].
  destruct (Z.eqb_spec k' k); [done|]. simpl. rewrite NoDup_cons. split; [|by apply IH].
  intros Hin. apply Hk'. clear -Hin.
  induction m as [|[k0 v0] m IH]; simpl in *; [done|].
  destruct (Z.eqb_spec k0 k); [by right|].
  simpl in Hin. apply elem_of_cons in Hin as [->|?]; [left|right; by apply IH].
Qed.

Lemma get_delete_eq k m : JsMap.wf m → JsMap.get k (JsMap.delete k m) = None.
Proof.
  unfold JsMap.wf, JsMap.keys. induction m as [|[k' v'] m IH]; simpl; [done|].
  rewrite NoDup_cons. intros [Hk' Hm].
  destruct (Z.eqb_spec k' k) as [->|Hne]; simpl.
  - by apply get_None_keys.
  - destruct (Z.eqb_spec k' k); [done|]. by apply IH.
Qed.

Lemma wf_nil : JsMap.wf (V:=V) [].
Proof. apply NoDup_nil_2. Qed.
End facts.
End JsMapFacts.

(** ** Facts about the monad *)

(** A property that every iteration of a loop preserves holds after the
    loop. *)
Lemma for_of_ind {A} (P : Storage → Prop) (l : list A) (body : A → M unit) s :
  P s →
  (∀ x s, x ∈ l → P s → P (exec (body x) s)) →
  P (exec (for_of l body) s).
Proof.
  revert s. induction l as [|x l IH]; intros s Hs Hbody; simpl; [done|].
  unfold exec, bind in *. specialize (Hbody x s) as Hx.
  destruct (body x s) as [[] s1]. simpl in Hx.
  apply IH.
  - apply Hx; [left | done].
  - intros y s2 Hy. apply Hbody. by right.
Qed.

Lemma read_only_ret {A} (a : A) : read_only (ret a).
Proof. done. Qed.

Lemma read_only_gets {A} (f : Storage → A) : read_only (gets f).
Proof. done. Qed.

Lemma read_only_bind {A B} (m : M A) (f : A → M B) :
  read_only m → (∀ a, read_only (f a)) → read_only (bind m f).
Proof.
  intros Hm Hf s. unfold exec, bind. specialize (Hm s). unfold exec in Hm.
  destruct (m s) as [a s1]. simpl in Hm. subst s1. apply Hf.
Qed.

Lemma read_only_for_push {A B} (l : list A) (body : A → M (option B)) :
  (∀ x, read_only (body x)) → read_only (for_push l body).
Proof.
  intros Hbody. induction l as [|x l IH]; simpl; [apply read_only_ret|].
  apply read_only_bind; [done|]. intros p.
  apply read_only_bind; [done|]. intros r. apply read_only_ret.
Qed.

(** The value of a read-only loop that pushes [f s x] for every [x]. *)
Lemma eval_for_push {A B} (f : Storage → A → option B) (l : list A)
    (body : A → M (option B)) s :
  (∀ x, body x s = (f s x, s)) →
  for_push l body s = (omap (f s) l, s).
Proof.
  intros Hbody. induction l as [|x l IH]; simpl; [done|].
  unfold bind. rewrite Hbody, IH. unfold ret. by destruct (f s x).
Qed.

(** ** Clinic creation and the department list *)

(** C9: [createClinic] keeps an explicitly empty department array; the
    [["General"]] default is applied only when the field is absent or null.
    A non-null array, empty or not, is stored as given, so a clinic created
    with an empty array does not have at least one department. *)
Theorem createClinic_departments_default (now : Z) (insertClinic : InsertClinic.t) s :
  let clinic := eval (createClinic now insertClinic) s in
  let s' := exec (createClinic now insertClinic) s in
  JsMap.get (currentClinicId s) (clinics s') = Some clinic
  ∧ Clinic.id clinic = currentClinicId s
  ∧ Clinic.departments clinic =
      match InsertClinic.departments insertClinic with
      | Some given => Some given
      | None => Some ["General"]
      end
  ∧ (InsertClinic.departments insertClinic = Some [] ↔ Clinic.departments clinic = Some [])
  ∧ (InsertClinic.departments insertClinic = Some [] →
     ¬ has_department (currentClinicId s) s').
Proof.
  intros clinic s'.
  assert (Hget : JsMap.get (currentClinicId s) (clinics s') = Some clinic).
  { subst clinic s'. unfold createClinic, next_clinicId. run_monad.
    apply JsMapFacts.get_set_eq. }
  assert (Hdep : Clinic.departments clinic =
                 match InsertClinic.departments insertClinic with
                 | Some given => Some given
                 | None => Some ["General"]
                 end).
  { subst clinic. unfold createClinic, next_clinicId. run_monad.
    by destruct (InsertClinic.departments insertClinic). }
  split_and!; try done.
  - rewrite Hdep. destruct (InsertClinic.departments insertClinic); split; congruence.
  - intros Hempty (clinic' & Hget' & Hlen). rewrite Hget in Hget'.
    injection Hget' as <-. rewrite Hdep, Hempty in Hlen. simpl in Hlen. lia.
Qed.

Lemma createClinic_departments_default_witness :
  ¬ has_department 1 Samples.empty_departments.
Proof.
  refine (proj2 (proj2 (proj2 (proj2
    (createClinic_departments_default 1
       (InsertClinic.mk "North" None None (Some [])) MemStorage_new)))) _).
  reflexivity.
Defined.

(** C3, the claim as stated fails: a clinic created with an empty
    department array has an empty list returned. *)
Lemma getDepartmentsByClinic_empty :
  JsMap.get 1 (clinics Samples.empty_departments) ≠ None
  ∧ eval (getDepartmentsByClinic 1) Samples.empty_departments = [].
Proof. split; [by vm_compute | reflexivity]. Qed.

(** C3, amended: [getDepartmentsByClinic] returns the stored department
    list whenever the clinic exists and its list is not null, even an empty
    one, and [["General"]] when the clinic is unknown or its list is null. The
    result is empty exactly when the stored list is the empty array. The call
    changes nothing. *)
Theorem getDepartmentsByClinic_spec (clinicId : Z) s :
  eval (getDepartmentsByClinic clinicId) s =
    match JsMap.get clinicId (clinics s) with
    | Some clinic =>
        match Clinic.departments clinic with
        | Some stored => stored
        | None => ["General"]
        end
    | None => ["General"]
    end
  ∧ exec (getDepartmentsByClinic clinicId) s = s
  ∧ (eval (getDepartmentsByClinic clinicId) s = [] ↔
     ∃ clinic, JsMap.get clinicId (clinics s) = Some clinic
               ∧ Clinic.departments clinic = Some []).
Proof.
  run_monad. split; [|split; [done|]].
  - destruct (JsMap.get clinicId (clinics s)) as [clinic|]; simpl; [|done].
    by destruct (Clinic.departments clinic).
  - destruct (JsMap.get clinicId (clinics s)) as [clinic|]; simpl.
    + destruct (Clinic.departments clinic) as [stored|] eqn:Hd; simpl.
      * split; [intros ->; by exists clinic|]. intros (c & [= <-] & Hc). congruence.
      * split; [done|]. intros (c & [= <-] & Hc). congruence.
    + split; [done|]. by intros (c & ? & _).
Qed.

(** ** Marking a thought as read *)

(** C2, the claim as stated fails: thought 1 was read at time 10; marking
    it again at time 20 leaves a different thought. *)
Lemma markThoughtAsRead_again_differs :
  ∃ thought,
    JsMap.get 1 (thoughts Samples.read_once) = Some thought
    ∧ Thought.isRead thought = Some true
    ∧ Thought.readAt thought = Some 10
    ∧ JsMap.get 1 (thoughts (exec (markThoughtAsRead 20 1) Samples.read_once))
      ≠ Some thought.
Proof. eexists. repeat split; try reflexivity. by vm_compute. Qed.

(** C2, amended: marking an already read thought again succeeds, keeps
    [isRead] and every other field of that thought, and overwrites [readAt]
    with the time of the call; no other thought, no history entry, no user and
    no clinic changes. The thought is left as it was exactly when the clock has
    not moved since it was read. *)
Theorem markThoughtAsRead_already_read (now thoughtId : Z) (thought : Thought.t) s :
  JsMap.get thoughtId (thoughts s) = Some thought →
  Thought.isRead thought = Some true →
  let s' := exec (markThoughtAsRead now thoughtId) s in
  eval (markThoughtAsRead now thoughtId) s = true
  ∧ JsMap.get thoughtId (thoughts s') = Some (Thought.with_readAt now thought)
  ∧ (∀ k, k ≠ thoughtId → JsMap.get k (thoughts s') = JsMap.get k (thoughts s))
  ∧ thoughtHistory s' = thoughtHistory s
  ∧ users s' = users s
  ∧ clinics s' = clinics s
  ∧ (JsMap.get thoughtId (thoughts s') = Some thought ↔ Thought.readAt thought = Some now).
Proof.
  intros Hget Hread. unfold markThoughtAsRead. run_monad. rewrite Hget. simpl.
  assert (Heq : Thought.mk (Thought.id thought) (Thought.title thought)
            (Thought.content thought) (Thought.category thought)
            (Thought.department thought) (Thought.authorId thought)
            (Thought.clinicId thought) (Thought.isDeleted thought)
            (Thought.deletedAt thought) (Thought.deletedBy thought)
            (Thought.editCount thought) (Thought.lastEditedAt thought)
            (Thought.lastEditedBy thought) (Some true) (Some now)
            (Thought.createdAt thought) = Thought.with_readAt now thought).
  { destruct thought; simpl in *. by subst. }
  rewrite Heq, JsMapFacts.get_set_eq.
  repeat split; try done.
  - intros k Hk. by apply JsMapFacts.get_set_ne.
  - intros [= H]. destruct thought; simpl in *. congruence.
  - intros H. destruct thought; simpl in *. congruence.
Qed.

Lemma markThoughtAsRead_already_read_witness :
  JsMap.get 1 (thoughts (exec (markThoughtAsRead 20 1) Samples.read_once))
  = Some (Thought.mk 1 "Waiting room" "Too cold" "General" None 1 1 (Some false) None None
            (Some 0) None None (Some true) (Some 20) (Some 1)).
Proof.
  refine (proj1 (proj2 (markThoughtAsRead_already_read 20 1
    (Thought.mk 1 "Waiting room" "Too cold" "General" None 1 1 (Some false) None None
       (Some 0) None None (Some true) (Some 10) (Some 1))
    Samples.read_once _ _))); reflexivity.
Defined.

(** ** Facts about the array helpers *)

Lemma findIndex_Some {A} (p : A → bool) (l : list A) (i : nat) :
  findIndex p l = Some i →
  ∃ x, l !! i = Some x ∧ p x = true.
Proof.
  revert i. induction l as [|y l IH]; intros i; simpl; [done|].
  destruct (p y) eqn:Hp.
  - intros [= <-]. by exists y.
  - destruct (findIndex p l) as [j|]; simpl; [|done].
    intros [= <-]. by apply IH.
Qed.

Lemma findIndex_first {A} (p : A → bool) (l : list A) (i j : nat) (x : A) :
  findIndex p l = Some i → (j < i)%nat → l !! j = Some x → p x = false.
Proof.
  revert i j. induction l as [|y l IH]; intros i j; simpl; [done|].
  destruct (p y) eqn:Hp.
  - intros [= <-]. lia.
  - destruct (findIndex p l) as [i'|]; simpl; [|done].
    intros [= <-] Hlt. destruct j as [|j]; simpl.
    + by intros [= <-].
    + apply (IH i'); [done | lia].
Qed.

(** Keeping the elements whose index differs from [i] deletes the
    element at [i]. *)
Lemma filter_from_delete {A} (l : list A) (start i : nat) :
  (start ≤ i)%nat →
  filter_from start (λ _ j, negb (Nat.eqb j i)) l = delete (i - start)%nat l.
Proof.
  revert start. induction l as [|x l IH]; intros start Hle; simpl; [done|].
  destruct (Nat.eqb_spec start i) as [->|Hne]; simpl.
  - rewrite Nat.sub_diag. simpl. clear IH Hle.
    assert (Hgen : ∀ k, (i < k)%nat → filter_from k (λ _ j, negb (Nat.eqb j i)) l = l).
    { induction l as [|y l IHl]; intros k Hk; simpl; [done|].
      destruct (Nat.eqb_spec k i); [lia|]. simpl. rewrite IHl; [done | lia]. }
    apply Hgen. lia.
  - rewrite IH by lia.
    replace (i - start)%nat with (S (i - S start)) by lia. done.
Qed.

Lemma length_with_one_less {A} (l : list A) (i : nat) :
  is_Some (l !! i) → (1 < length l)%nat → (1 ≤ length (delete i l))%nat.
Proof. intros Hi Hlen. rewrite length_delete by done. lia. Qed.

(** ** The department list never becomes empty *)

(** A loop whose iterations leave the clinics alone leaves them alone,
    without any assumption on the table of thoughts. *)
Lemma clinics_for_of_thoughts {A} (l : list A) (body : A → M unit) s :
  (∀ x s, clinics (exec (body x) s) = clinics s) →
  clinics (exec (for_of l body) s) = clinics s.
Proof.
  intros Hbody. apply (for_of_ind (λ s', clinics s' = clinics s)); [done|].
  intros x s1 _ <-. apply Hbody.
Qed.

(** The body of both cascades writes thoughts only. *)
Lemma cascade_body_clinics
    (test : Thought.t → bool) (name : string) (x : Z * Thought.t) s :
  clinics (exec (let '(thoughtId, thought) := x in
                 if test thought
                 then modify (set_thoughts
                        (JsMap.set thoughtId (Thought.with_department name thought)))
                 else ret tt) s) = clinics s.
Proof. destruct x as [k t]. by destruct (test t). Qed.

Lemma has_department_set (clinicId k : Z) (c : Clinic.t) (l : list string) s :
  has_department clinicId s → (k = clinicId → (1 ≤ length l)%nat) →
  has_department clinicId (set_clinics (JsMap.set k (Clinic.with_departments l c)) s).
Proof.
  intros (clinic & Hget & Hlen) Hl. unfold has_department. simpl.
  destruct (decide (k = clinicId)) as [->|Hne].
  - rewrite JsMapFacts.get_set_eq. eexists. split; [done|]. simpl. by apply Hl.
  - rewrite JsMapFacts.get_set_ne by done. by exists clinic.
Qed.

Lemma has_department_clinics (clinicId : Z) s s' :
  clinics s' = clinics s → has_department clinicId s → has_department clinicId s'.
Proof. unfold has_department. by intros ->. Qed.

Lemma addDepartmentToClinic_has_department (clinicId k : Z) (department : string) s :
  has_department clinicId s →
  has_department clinicId (exec (addDepartmentToClinic k department) s).
Proof.
  intros H. unfold addDepartmentToClinic. run_monad.
  destruct (JsMap.get k (clinics s)) as [c|]; simpl; [|done].
  destruct (truthy_string (trim department)); simpl; [|done].
  destruct (existsb _ _); simpl; [done|].
  apply has_department_set; [done|]. intros _. rewrite length_app. simpl. lia.
Qed.

Lemma updateDepartmentInClinic_has_department
    (clinicId k : Z) (oldDepartment newDepartment : string) s :
  has_department clinicId s →
  has_department clinicId (exec (updateDepartmentInClinic k oldDepartment newDepartment) s).
Proof.
  intros H. unfold updateDepartmentInClinic. run_monad.
  destruct (JsMap.get k (clinics s)) as [c|] eqn:Hk; simpl; [|done].
  destruct (negb (truthy_string (trim oldDepartment))
            || negb (truthy_string (trim newDepartment))); simpl; [done|].
  destruct (findIndex _ _) as [oldIndex|]; simpl; [|done].
  destruct (some_from _ _ _); simpl; [done|].
  loop_frame clinics_for_of_thoughts Hloop.
  apply has_department_set.
  - apply (has_department_clinics _ s); [|done]. apply Hloop.
    intros x s2. apply cascade_body_clinics.
  - intros ->. rewrite length_insert.
    destruct H as (clinic & Hget & Hlen). congruence.
Qed.

Lemma removeDepartmentFromClinic_has_department (clinicId k : Z) (department : string) s :
  has_department clinicId s →
  has_department clinicId (exec (removeDepartmentFromClinic k department) s).
Proof.
  intros H. unfold removeDepartmentFromClinic. run_monad.
  destruct (JsMap.get k (clinics s)) as [c|] eqn:Hk; simpl; [|done].
  destruct (truthy_string (trim department)); simpl; [|done].
  destruct (findIndex _ _) as [index|] eqn:Hfind; simpl; [|done].
  destruct (Nat.leb_spec (length (default [] (Clinic.departments c))) 1) as [|Hlen];
    simpl; [done|].
  loop_frame clinics_for_of_thoughts Hloop.
  apply has_department_set.
  - apply (has_department_clinics _ s); [|done]. apply Hloop.
    intros x s2. apply cascade_body_clinics.
  - intros _. rewrite filter_from_delete by lia. rewrite Nat.sub_0_r.
    apply length_with_one_less; [|done].
    apply findIndex_Some in Hfind as (x & Hx & _). by exists x.
Qed.

Lemma createHistoryEntry_clinics now thoughtId thought userId changeType s :
  clinics (exec (createHistoryEntry now thoughtId thought userId changeType) s) = clinics s.
Proof. done. Qed.

Lemma step_has_department (c : call) (clinicId : Z) s :
  has_department clinicId s → has_department clinicId (step c s).
Proof.
  intros H. destruct c; simpl.
  - by apply addDepartmentToClinic_has_department.
  - by apply updateDepartmentInClinic_has_department.
  - by apply removeDepartmentFromClinic_has_department.
  - by apply (has_department_clinics _ s).
  - apply (has_department_clinics _ s); [|done].
    unfold updateThought. run_monad. by destruct (JsMap.get id (thoughts s)).
  - apply (has_department_clinics _ s); [|done].
    unfold deleteThought. run_monad. by destruct (JsMap.get id (thoughts s)).
  - apply (has_department_clinics _ s); [|done].
    unfold markThoughtAsRead. run_monad. by destruct (JsMap.get thoughtId (thoughts s)).
Qed.

Lemma run_has_department (calls : list call) (clinicId : Z) s :
  has_department clinicId s → has_department clinicId (run calls s).
Proof.
  revert s. unfold run. induction calls as [|c calls IH]; intros s H; simpl; [done|].
  apply IH. by apply step_has_department.
Qed.

(** C1: a clinic that has at least one department still has at least one
    after any finite sequence of calls of [addDepartmentToClinic],
    [updateDepartmentInClinic] and [removeDepartmentFromClinic] (on this or any
    other clinic, and interleaved with calls that write thoughts); and
    [removeDepartmentFromClinic] returns false and leaves the store as it is
    whenever the list has exactly one element. *)
Theorem departments_never_empty
    (calls : list call) (clinicId : Z) (clinic : Clinic.t) s :
  JsMap.get clinicId (clinics s) = Some clinic →
  (1 ≤ length (default [] (Clinic.departments clinic)))%nat →
  (∃ clinic', JsMap.get clinicId (clinics (run calls s)) = Some clinic'
              ∧ (1 ≤ length (default [] (Clinic.departments clinic')))%nat)
  ∧ (length (default [] (Clinic.departments clinic)) = 1%nat →
     ∀ department, removeDepartmentFromClinic clinicId department s = (false, s)).
Proof.
  intros Hget Hlen. split.
  - apply run_has_department. by exists clinic.
  - intros Hone department. unfold removeDepartmentFromClinic. run_monad.
    rewrite Hget. destruct (truthy_string (trim department)); simpl; [|done].
    destruct (findIndex _ _); simpl; [|done].
    by rewrite Hone.
Qed.

Lemma departments_never_empty_witness :
  (∃ clinic',
     JsMap.get 2 (clinics (run [RemoveDepartment 2 "Cardiology";
                                UpdateDepartment 2 "cardiology" "Heart"]
                             Samples.two_clinics)) = Some clinic'
     ∧ (1 ≤ length (default [] (Clinic.departments clinic')))%nat)
  ∧ (length ["Cardiology"] = 1%nat →
     ∀ department,
       removeDepartmentFromClinic 2 department Samples.two_clinics
       = (false, Samples.two_clinics)).
Proof.
  apply (departments_never_empty _ 2
           (Clinic.mk 2 "South" None None (Some ["Cardiology"]) (Some 5))
           Samples.two_clinics); [reflexivity | simpl; lia].
Defined.

(** ** The cascade over the thoughts *)


Lemma set_thoughts_const (m : list (Z * Thought.t)) s :
  thoughts s = m → set_thoughts (λ _, m) s = s.
Proof. intros <-. by destruct s. Qed.

(** The loop of the two cascades, run over a snapshot of the table,
    rewrites each entry where it stands. *)
Lemma cascade_loop_from (test : Thought.t → bool) (name : string)
    (done todo : list (Z * Thought.t)) s :
  thoughts s = done ++ todo →
  JsMap.wf (done ++ todo) →
  for_of todo (λ '(thoughtId, thought),
    if test thought
    then modify (set_thoughts
           (JsMap.set thoughtId (Thought.with_department name thought)))
    else ret tt) s
  = (tt, set_thoughts (λ _, done ++ refile test name todo) s).
Proof.
  revert done s. induction todo as [|[k t] todo IH]; intros done s Hs Hwf; simpl.
  - unfold ret. by rewrite set_thoughts_const.
  - assert (Hk : k ∉ JsMap.keys done).
    { unfold JsMap.wf, JsMap.keys in *. rewrite fmap_app in Hwf.
      apply NoDup_app in Hwf as (_ & Hdis & _). intros Hin.
      apply (Hdis k Hin). left. }
    unfold bind. destruct (test t); simpl.
    + rewrite (IH (done ++ [(k, Thought.with_department name t)])).
      * rewrite <- app_assoc. simpl. by destruct s.
      * simpl. rewrite Hs, JsMapFacts.set_middle by done. by rewrite <- app_assoc.
      * unfold JsMap.wf, JsMap.keys in *. rewrite <- app_assoc.
        rewrite !fmap_app in *. done.
    + rewrite (IH (done ++ [(k, t)])).
      * by rewrite <- app_assoc.
      * by rewrite <- app_assoc.
      * by rewrite <- app_assoc.
Qed.

Lemma cascade_loop (test : Thought.t → bool) (name : string) s :
  JsMap.wf (thoughts s) →
  for_of (thoughts s) (λ '(thoughtId, thought),
    if test thought
    then modify (set_thoughts
           (JsMap.set thoughtId (Thought.with_department name thought)))
    else ret tt) s
  = (tt, set_thoughts (refile test name) s).
Proof.
  intros Hwf. rewrite (cascade_loop_from test name [] (thoughts s) s); done.
Qed.

Lemma get_refile (test : Thought.t → bool) (name : string) (k : Z) m :
  JsMap.get k (refile test name m)
  = (λ thought, if test thought then Thought.with_department name thought else thought)
      <$> JsMap.get k m.
Proof.
  induction m as [|[k' t] m IH]; simpl; [done|]. by destruct (Z.eqb k' k).
Qed.

Lemma keys_refile (test : Thought.t → bool) (name : string) m :
  JsMap.keys (refile test name m) = JsMap.keys m.
Proof.
  unfold JsMap.keys, refile. induction m as [|[k t] m IH]; simpl; [done|]. by rewrite IH.
Qed.


(** ** Renaming a department *)



(** ** Removing a department *)




(** ** [editCount] and the history *)

Lemma values_set_fresh {V} (k : Z) (v : V) (m : list (Z * V)) :
  JsMap.get k m = None → JsMap.values (JsMap.set k v m) = JsMap.values m ++ [v].
Proof.
  intros H. rewrite JsMapFacts.set_fresh by done.
  unfold JsMap.values. by rewrite map_app.
Qed.

Lemma fresh_history_id s :
  (∀ k, k ∈ JsMap.keys (thoughtHistory s) → k < currentHistoryId s) →
  JsMap.get (currentHistoryId s) (thoughtHistory s) = None.
Proof.
  intros H. apply JsMapFacts.get_None_keys. intros Hin. apply H in Hin. lia.
Qed.

(** What [createHistoryEntry] writes, in a store whose history ids are
    below the counter. *)
Lemma createHistoryEntry_spec now thoughtId thought userId changeType s :
  (∀ k, k ∈ JsMap.keys (thoughtHistory s) → k < currentHistoryId s) →
  let entry :=
    ThoughtHistory.mk (currentHistoryId s) thoughtId (Some (Thought.title thought))
      (Some (Thought.content thought)) (Some (Thought.category thought))
      (Thought.department thought) userId (Some now) changeType in
  exec (createHistoryEntry now thoughtId thought userId changeType) s
  = mkStorage (users s) (clinics s) (thoughts s)
      (thoughtHistory s ++ [(currentHistoryId s, entry)])
      (currentUserId s) (currentClinicId s) (currentThoughtId s) (currentHistoryId s + 1).
Proof.
  intros H entry. unfold createHistoryEntry, next_historyId, set_thoughtHistory.
  run_monad. by rewrite JsMapFacts.set_fresh by (by apply fresh_history_id).
Qed.

Lemma edited_entries_snoc (k hid : Z) (entry : ThoughtHistory.t) s s1 :
  thoughtHistory s1 = thoughtHistory s ++ [(hid, entry)] →
  edited_entries k s1
  = (edited_entries k s
     + if (ThoughtHistory.thoughtId entry =? k)%Z
          && ChangeType_eqb (ThoughtHistory.changeType entry) edited
       then 1 else 0)%nat.
Proof.
  intros H. unfold edited_entries, JsMap.values. rewrite H, map_app, List.filter_app, length_app.
  simpl. by destruct (_ && _).
Qed.

Lemma edited_entries_none (k : Z) s :
  (∀ entry, entry ∈ JsMap.values (thoughtHistory s) →
            ThoughtHistory.thoughtId entry < k) →
  edited_entries k s = 0%nat.
Proof.
  unfold edited_entries. induction (JsMap.values (thoughtHistory s)) as [|e l IH];
    intros H; simpl; [done|].
  destruct (Z.eqb_spec (ThoughtHistory.thoughtId e) k) as [Heq|Hne]; simpl.
  - specialize (H e ltac:(left)). lia.
  - apply IH. intros entry Hin. apply H. by right.
Qed.

Lemma get_set_wf {V} (k k' : Z) (v v' : V) (m : list (Z * V)) :
  JsMap.get k' (JsMap.set k v m) = Some v' →
  (k' = k ∧ v' = v) ∨ (k' ≠ k ∧ JsMap.get k' m = Some v').
Proof.
  destruct (decide (k = k')) as [<-|Hne].
  - rewrite JsMapFacts.get_set_eq. intros [= <-]. by left.
  - rewrite JsMapFacts.get_set_ne by done. intros H. right. by split.
Qed.

Lemma history_consistent_new : history_consistent MemStorage_new.
Proof.
  unfold history_consistent. simpl. split_and!.
  - apply JsMapFacts.wf_nil.
  - done.
  - intros entry H. by apply elem_of_nil in H.
  - intros k H. by apply elem_of_nil in H.
Qed.

(** Writing a thought together with one history entry for it keeps the
    invariant when the new [editCount] accounts for the entry. *)
Lemma history_consistent_write
    (k counter : Z) (thought : Thought.t) (entry : ThoughtHistory.t) s :
  history_consistent s →
  currentThoughtId s ≤ counter →
  k < counter →
  ThoughtHistory.thoughtId entry = k →
  Thought.editCount thought
  = Some (Z.of_nat (edited_entries k s
                    + if ChangeType_eqb (ThoughtHistory.changeType entry) edited
                      then 1 else 0)) →
  history_consistent
    (mkStorage (users s) (clinics s)
       (JsMap.set k thought (thoughts s))
       (JsMap.set (currentHistoryId s) entry (thoughtHistory s))
       (currentUserId s) (currentClinicId s) counter (currentHistoryId s + 1)).
Proof.
  intros (Hwf & Hth & Hhist & Hkeys) Hcounter Hk Hentry Hcount.
  assert (Hfresh := fresh_history_id s Hkeys).
  assert (Hsnoc : ∀ k',
    edited_entries k'
      (mkStorage (users s) (clinics s) (JsMap.set k thought (thoughts s))
         (JsMap.set (currentHistoryId s) entry (thoughtHistory s))
         (currentUserId s) (currentClinicId s) counter (currentHistoryId s + 1))
    = (edited_entries k' s
       + if (ThoughtHistory.thoughtId entry =? k')%Z
            && ChangeType_eqb (ThoughtHistory.changeType entry) edited
         then 1 else 0)%nat).
  { intros k'. apply (edited_entries_snoc k' (currentHistoryId s)). simpl.
    by apply JsMapFacts.set_fresh. }
  unfold history_consistent. split_and!.
  - by apply JsMapFacts.wf_set.
  - intros k' thought' [[-> ->]|[Hne Hget]]%get_set_wf; simpl.
    + split; [done|]. rewrite Hsnoc, Hentry, Z.eqb_refl. done.
    + destruct (Hth k' thought' Hget) as [Hlt Hec]. split; [lia|].
      rewrite Hsnoc, Hentry. destruct (Z.eqb_spec k k'); [congruence|].
      simpl. by rewrite Nat.add_0_r.
  - simpl. rewrite values_set_fresh by done.
    intros e [Hin| ->%list_elem_of_singleton]%elem_of_app.
    + apply Hhist in Hin. lia.
    + lia.
  - simpl. rewrite JsMapFacts.keys_set. unfold JsMap.has. rewrite Hfresh.
    intros k' [Hin| ->%list_elem_of_singleton]%elem_of_app.
    + apply Hkeys in Hin. lia.
    + lia.
Qed.

Lemma createThought_consistent now now' insertThought userId s :
  history_consistent s →
  history_consistent (exec (createThought now now' insertThought userId) s).
Proof.
  intros H. unfold_method. apply history_consistent_write; try done; try lia.
  simpl. rewrite edited_entries_none; [done|]. apply H.
Qed.

Lemma updateThought_consistent now now' id updates userId s :
  history_consistent s →
  history_consistent (exec (updateThought now now' id updates userId) s).
Proof.
  intros H. unfold_method.
  destruct (JsMap.get id (thoughts s)) as [thought|] eqn:Hget; simpl; [|done].
  destruct H as (Hwf & Hth & Hrest). destruct (Hth id thought Hget) as [Hlt Hec].
  apply history_consistent_write; try done; try lia.
  simpl. rewrite Hec. simpl. f_equal. lia.
Qed.

Lemma deleteThought_consistent now now' id userId s :
  history_consistent s →
  history_consistent (exec (deleteThought now now' id userId) s).
Proof.
  intros H. unfold_method.
  destruct (JsMap.get id (thoughts s)) as [thought|] eqn:Hget; simpl; [|done].
  destruct H as (Hwf & Hth & Hrest). destruct (Hth id thought Hget) as [Hlt Hec].
  apply history_consistent_write; try done; try lia.
  simpl. rewrite Hec. by rewrite Nat.add_0_r.
Qed.

(** A store that differs only in thoughts that kept their [editCount]
    (and in clinics and users) is consistent as well. *)
Lemma history_consistent_same_edits s s1 :
  history_consistent s →
  thoughtHistory s1 = thoughtHistory s →
  currentThoughtId s1 = currentThoughtId s →
  currentHistoryId s1 = currentHistoryId s →
  JsMap.wf (thoughts s1) →
  (∀ k thought1,
     JsMap.get k (thoughts s1) = Some thought1 →
     ∃ thought, JsMap.get k (thoughts s) = Some thought
                ∧ Thought.editCount thought1 = Thought.editCount thought) →
  history_consistent s1.
Proof.
  intros (Hwf & Hth & Hhist & Hkeys) Hh Hc Hc' Hwf1 Hsame.
  unfold history_consistent, edited_entries in *. rewrite Hh, Hc, Hc'.
  split_and!; try done.
  intros k thought1 (thought & Hget & ->)%Hsame. by apply Hth.
Qed.

Lemma markThoughtAsRead_consistent now thoughtId s :
  history_consistent s →
  history_consistent (exec (markThoughtAsRead now thoughtId) s).
Proof.
  intros H. unfold_method.
  destruct (JsMap.get thoughtId (thoughts s)) as [thought|] eqn:Hget; simpl; [|done].
  apply (history_consistent_same_edits s); try done; simpl.
  - apply JsMapFacts.wf_set, H.
  - intros k thought1 [[-> ->]|[Hne Hk]]%get_set_wf; eauto.
Qed.

Lemma refile_consistent test name (f : list (Z * Clinic.t) → list (Z * Clinic.t)) s :
  history_consistent s →
  history_consistent (set_clinics f (set_thoughts (refile test name) s)).
Proof.
  intros H. apply (history_consistent_same_edits s); try done; simpl.
  - unfold JsMap.wf. rewrite keys_refile. apply H.
  - intros k thought1. rewrite get_refile.
    destruct (JsMap.get k (thoughts s)) as [thought|]; simpl; [|done].
    intros [= <-]. exists thought. split; [done|]. by destruct (test thought).
Qed.

Lemma set_clinics_consistent (f : list (Z * Clinic.t) → list (Z * Clinic.t)) s :
  history_consistent s → history_consistent (set_clinics f s).
Proof.
  intros H. apply (history_consistent_same_edits s); try done; simpl; [apply H|eauto].
Qed.

Lemma addDepartmentToClinic_consistent clinicId department s :
  history_consistent s →
  history_consistent (exec (addDepartmentToClinic clinicId department) s).
Proof.
  intros H. unfold addDepartmentToClinic. run_monad.
  destruct (JsMap.get clinicId (clinics s)); simpl; [|done].
  destruct (truthy_string (trim department)); simpl; [|done].
  destruct (existsb _ _); simpl; [done|].
  by apply set_clinics_consistent.
Qed.

Lemma updateDepartmentInClinic_consistent clinicId oldDepartment newDepartment s :
  history_consistent s →
  history_consistent (exec (updateDepartmentInClinic clinicId oldDepartment newDepartment) s).
Proof.
  intros H. unfold updateDepartmentInClinic. run_monad.
  destruct (JsMap.get clinicId (clinics s)) as [clinic|]; simpl; [|done].
  destruct (negb (truthy_string (trim oldDepartment))
            || negb (truthy_string (trim newDepartment))); simpl; [done|].
  destruct (findIndex _ _) as [index|]; simpl; [|done].
  destruct (some_from _ _ _); simpl; [done|].
  pose proof (cascade_loop
    (λ thought, strict_eq_string (Thought.department thought)
                  (default [] (Clinic.departments clinic) !! index)
                && (Thought.clinicId thought =? clinicId))
    (trim newDepartment) s (proj1 H)) as Hloop.
  run_monad. rewrite Hloop. simpl. by apply refile_consistent.
Qed.

Lemma removeDepartmentFromClinic_consistent clinicId department s :
  history_consistent s →
  history_consistent (exec (removeDepartmentFromClinic clinicId department) s).
Proof.
  intros H. unfold removeDepartmentFromClinic. run_monad.
  destruct (JsMap.get clinicId (clinics s)) as [clinic|]; simpl; [|done].
  destruct (truthy_string (trim department)); simpl; [|done].
  destruct (findIndex _ _) as [index|]; simpl; [|done].
  destruct (length _ <=? 1)%nat; simpl; [done|].
  pose proof (cascade_loop
    (λ thought, strict_eq_string (Thought.department thought)
                  (default [] (Clinic.departments clinic) !! index)
                && (Thought.clinicId thought =? clinicId))
    (string_or
       (filter_from 0 (λ _ i, negb (Nat.eqb i index))
          (default [] (Clinic.departments clinic)) !! 0%nat) "General")
    s (proj1 H)) as Hloop.
  run_monad. rewrite Hloop. simpl. by apply refile_consistent.
Qed.

Lemma step_consistent (c : call) s :
  history_consistent s → history_consistent (step c s).
Proof.
  intros H. destruct c; simpl.
  - by apply addDepartmentToClinic_consistent.
  - by apply updateDepartmentInClinic_consistent.
  - by apply removeDepartmentFromClinic_consistent.
  - by apply createThought_consistent.
  - by apply updateThought_consistent.
  - by apply deleteThought_consistent.
  - by apply markThoughtAsRead_consistent.
Qed.

Lemma run_consistent (calls : list call) s :
  history_consistent s → history_consistent (run calls s).
Proof.
  revert s. unfold run. induction calls as [|c calls IH]; intros s H; simpl; [done|].
  apply IH. by apply step_consistent.
Qed.

(** The stores reached from [new MemStorage()] have a well-formed table
    of thoughts, which is what the cascade theorems ask for. *)
Lemma run_wf_thoughts (calls : list call) :
  JsMap.wf (thoughts (run calls MemStorage_new)).
Proof. apply run_consistent, history_consistent_new. Qed.

(** C6: in every store reached from [new MemStorage()] by calls of
    [createThought], [updateThought], [deleteThought] and [markThoughtAsRead]
    (and of the three department methods), each thought's [editCount] is the
    number of its history entries with [changeType = "edited"]. [createThought]
    returns a thought with [editCount = 0] that has no [edited] entry, and
    [updateThought] on an existing thought adds exactly 1 to its [editCount]
    and appends exactly one entry, an [edited] one for that thought. *)
Theorem editCount_counts_edited_entries (calls : list call) :
  let s := run calls MemStorage_new in
  (∀ k thought,
     JsMap.get k (thoughts s) = Some thought →
     Thought.editCount thought = Some (Z.of_nat (edited_entries k s)))
  ∧ (∀ now now' insertThought userId,
       let thought := eval (createThought now now' insertThought userId) s in
       let s' := exec (createThought now now' insertThought userId) s in
       JsMap.get (Thought.id thought) (thoughts s') = Some thought
       ∧ Thought.editCount thought = Some 0
       ∧ edited_entries (Thought.id thought) s' = 0%nat)
  ∧ (∀ now now' id updates userId thought,
       JsMap.get id (thoughts s) = Some thought →
       let s' := exec (updateThought now now' id updates userId) s in
       ∃ updated entry n,
         eval (updateThought now now' id updates userId) s = Some updated
         ∧ JsMap.get id (thoughts s') = Some updated
         ∧ Thought.editCount thought = Some n
         ∧ Thought.editCount updated = Some (n + 1)
         ∧ JsMap.values (thoughtHistory s') = JsMap.values (thoughtHistory s) ++ [entry]
         ∧ ThoughtHistory.thoughtId entry = id
         ∧ ThoughtHistory.changeType entry = edited
         ∧ edited_entries id s' = S (edited_entries id s)).
Proof.
  intros s.
  assert (Hs : history_consistent s) by apply run_consistent, history_consistent_new.
  split_and!.
  - intros k thought Hget. by apply Hs.
  - intros now now' insertThought userId thought s'.
    pose proof (createThought_consistent now now' insertThought userId s Hs) as Hs'.
    assert (Hget : JsMap.get (Thought.id thought) (thoughts s') = Some thought).
    { subst thought s'. unfold_method. apply JsMapFacts.get_set_eq. }
    split_and!; [done | done |].
    destruct Hs' as (_ & Hth & _). destruct (Hth _ _ Hget) as [_ Hec].
    change (Thought.editCount thought) with (Some (Z.of_nat 0)) in Hec.
    injection Hec as Hec. apply Nat2Z.inj. symmetry. exact Hec.
  - intros now now' id updates userId thought Hget s'.
    destruct Hs as (Hwf & Hth & Hhist & Hkeys).
    destruct (Hth id thought Hget) as [Hlt Hec].
    assert (Hfresh := fresh_history_id s Hkeys).
    subst s'. unfold_method. rewrite Hget. simpl.
    eexists _, _, (Z.of_nat (edited_entries id s)). split_and!.
    + done.
    + apply JsMapFacts.get_set_eq.
    + done.
    + simpl. by rewrite Hec.
    + by apply values_set_fresh.
    + done.
    + done.
    + unfold edited_entries. simpl. rewrite values_set_fresh by done.
      rewrite List.filter_app, length_app. simpl. rewrite Z.eqb_refl. simpl. lia.
Qed.

Lemma editCount_counts_edited_entries_witness :
  let calls :=
    [CreateThought 1 2 (Samples.aThought None 1 1) 1;
     UpdateThought 3 4 1
       (ThoughtUpdates.mk (Some "Lobby") None None None None None None None) 1;
     MarkThoughtAsRead 5 1;
     UpdateThought 6 7 1
       (ThoughtUpdates.mk None (Some "Still cold") None None None None None None) 2;
     DeleteThought 8 9 1 2] in
  ∃ thought,
    JsMap.get 1 (thoughts (run calls MemStorage_new)) = Some thought
    ∧ Thought.editCount thought = Some 2
    ∧ edited_entries 1 (run calls MemStorage_new) = 2%nat.
Proof.
  intros calls.
  destruct (JsMap.get 1 (thoughts (run calls MemStorage_new))) as [thought|] eqn:Hget;
    [|by vm_compute in Hget].
  exists thought. split; [done|].
  pose proof (proj1 (editCount_counts_edited_entries calls) 1 thought Hget) as Hec.
  split; [by rewrite Hec | reflexivity].
Defined.

(** ** Sorting *)

Lemma insert_sorted_Permutation {A} (cmp : A → A → Z) (x : A) (l : list A) :
  insert_sorted cmp x l ≡ₚ x :: l.
Proof.
  induction l as [|y l IH]; simpl; [done|].
  destruct (0 <? cmp x y); [|done].
  rewrite IH. apply perm_swap.
Qed.

Lemma Array_sort_Permutation {A} (cmp : A → A → Z) (l : list A) :
  Array_sort cmp l ≡ₚ l.
Proof.
  unfold Array_sort. induction l as [|x l IH]; simpl; [done|].
  by rewrite insert_sorted_Permutation, IH.
Qed.

Section descending.
Context {A : Type} (key : A → Z).


End descending.

(** ** Reading the history of a thought *)

Lemma omap_Some_map {A B} (f : A → B) (l : list A) :
  omap (λ x, Some (f x)) l = map f l.
Proof. induction l as [|x l IH]; csimpl; [done|]. by f_equal. Qed.

(** [getThoughtHistory] as a function of the store: its value, and the
    store it leaves. *)
Lemma getThoughtHistory_value now thoughtId s :
  getThoughtHistory now thoughtId s
  = (let attach entry :=
       ThoughtHistoryWithUser.mk entry
         (default (unknownUser (ThoughtHistory.editedBy entry))
            (JsMap.get (ThoughtHistory.editedBy entry) (users s))) in
     let result :=
       map attach
         (Array_sort
            (λ a b, timeOf (ThoughtHistory.editedAt b) - timeOf (ThoughtHistory.editedAt a))
            (stored_entries thoughtId s)) in
     if (length result =? 0)%nat then
       match JsMap.get thoughtId (thoughts s) with
       | Some currentThought =>
           result ++
           [attach (ThoughtHistory.mk now thoughtId
                      (Some (Thought.title currentThought))
                      (Some (Thought.content currentThought))
                      (Some (Thought.category currentThought))
                      (Thought.department currentThought)
                      (Thought.authorId currentThought)
                      (Thought.createdAt currentThought)
                      created)]
       | None => result
       end
     else result, s).
Proof.
  unfold getThoughtHistory, stored_entries. unfold bind at 1. unfold gets at 1.
  unfold bind at 1.
  erewrite (eval_for_push (λ s entry, Some (ThoughtHistoryWithUser.mk entry
              (default (unknownUser (ThoughtHistory.editedBy entry))
                 (JsMap.get (ThoughtHistory.editedBy entry) (users s))))));
    [|done].
  rewrite omap_Some_map. simpl.
  destruct (length _ =? 0)%nat; [|done].
  run_monad. by destruct (JsMap.get thoughtId (thoughts s)).
Qed.



(** ** [getThoughtHistory] only reads *)

Lemma getThoughtHistory_read_only now thoughtId : read_only (getThoughtHistory now thoughtId).
Proof.
  unfold getThoughtHistory.
  apply read_only_bind; [apply read_only_gets|]. intros all.
  apply read_only_bind.
  { apply read_only_for_push. intros entry.
    apply read_only_bind; [apply read_only_gets|]. intros u. apply read_only_ret. }
  intros result. destruct (length result =? 0)%nat; [|apply read_only_ret].
  apply read_only_bind; [apply read_only_gets|]. intros [currentThought|].
  - apply read_only_bind; [apply read_only_gets|]. intros u. apply read_only_ret.
  - apply read_only_ret.
Qed.

(** C10: [getThoughtHistory] leaves the store as it is. In particular the
    entry synthesized for a thought without history is not saved: after the
    call the thought still has no stored entry, and a later call builds the
    entry again, its id being the clock reading of that later call. *)
Theorem getThoughtHistory_stores_nothing (now thoughtId : Z) s :
  let s' := exec (getThoughtHistory now thoughtId) s in
  s' = s
  ∧ (∀ thought,
       JsMap.get thoughtId (thoughts s) = Some thought →
       stored_entries thoughtId s = [] →
       stored_entries thoughtId s' = []
       ∧ map (λ e, ThoughtHistory.id (ThoughtHistoryWithUser.entry e))
           (eval (getThoughtHistory now thoughtId) s) = [now]
       ∧ ∀ later,
           map (λ e, ThoughtHistory.id (ThoughtHistoryWithUser.entry e))
             (eval (getThoughtHistory later thoughtId) s') = [later]).
Proof.
  intros s'. assert (Hs' : s' = s) by apply getThoughtHistory_read_only.
  split; [done|]. intros thought Hget Hnone. rewrite Hs'. split; [done|].
  assert (Hid : ∀ t, map (λ e, ThoughtHistory.id (ThoughtHistoryWithUser.entry e))
                       (eval (getThoughtHistory t thoughtId) s) = [t]).
  { intros t. unfold eval. rewrite getThoughtHistory_value. simpl.
    by rewrite Hnone, Hget. }
  split; [apply Hid | intros later; apply Hid].
Qed.

Lemma getThoughtHistory_stores_nothing_witness :
  stored_entries 1 (exec (getThoughtHistory 99 1) Samples.imported_thought) = []
  ∧ map (λ e, ThoughtHistory.id (ThoughtHistoryWithUser.entry e))
      (eval (getThoughtHistory 100 1)
         (exec (getThoughtHistory 99 1) Samples.imported_thought)) = [100].
Proof.
  destruct (getThoughtHistory_stores_nothing 99 1 Samples.imported_thought)
    as [_ Hfallback].
  destruct (Hfallback (Thought.mk 1 "Waiting room" "Too cold" "General" None 1 1
              (Some false) None None (Some 0) None None (Some false) None
              (Some Samples.mid_january)) eq_refl eq_refl) as (Hnone & _ & Hlater).
  split; [exact Hnone | exact (Hlater 100)].
Defined.

(** ** Querying the thoughts of a clinic *)

Lemma lookup_optional_user_value (id : option Z) s :
  lookup_optional_user id s = (optional_user s id, s).
Proof.
  destruct id as [id|]; simpl; [|done]. by destruct (truthy_number id).
Qed.

Lemma getThoughtsByClinic_value tz clinicId includeDeleted filters s :
  getThoughtsByClinic tz clinicId includeDeleted filters s
  = (Array_sort
       (λ a b, timeOf (Thought.createdAt (ThoughtWithAuthor.thought b))
               - timeOf (Thought.createdAt (ThoughtWithAuthor.thought a)))
       (omap (with_author s)
          (let thoughtsArray :=
             List.filter
               (λ thought, includeDeleted || negb (truthy_bool (Thought.isDeleted thought)))
               (List.filter (λ thought, Thought.clinicId thought =? clinicId)
                  (JsMap.values (thoughts s))) in
           match filters with
           | Some filters => apply_filters tz filters thoughtsArray
           | None => thoughtsArray
           end)), s).
Proof.
  unfold getThoughtsByClinic. unfold bind at 1. unfold gets at 1. unfold bind at 1.
  erewrite (eval_for_push with_author); [done|].
  intros thought. unfold bind, gets, with_author.
  rewrite !lookup_optional_user_value. unfold ret.
  by destruct (JsMap.get (Thought.authorId thought) (users s)).
Qed.

Lemma filter_filter {A} (p q : A → bool) (l : list A) :
  List.filter p (List.filter q l) = List.filter (λ x, q x && p x) l.
Proof.
  induction l as [|x l IH]; simpl; [done|].
  destruct (q x); simpl; [|done]. destruct (p x); by rewrite IH.
Qed.

Lemma map_thought_with_author (s : Storage) (l : list Thought.t) :
  map ThoughtWithAuthor.thought (omap (with_author s) l)
  = List.filter (λ thought, JsMap.has (Thought.authorId thought) (users s)) l.
Proof.
  induction l as [|x l IH]; csimpl; [done|].
  unfold with_author at 1. unfold JsMap.has.
  destruct (JsMap.get (Thought.authorId x) (users s)); csimpl; by rewrite IH.
Qed.

Lemma with_author_author (s : Storage) (l : list Thought.t) x :
  x ∈ omap (with_author s) l →
  JsMap.get (Thought.authorId (ThoughtWithAuthor.thought x)) (users s)
  = Some (ThoughtWithAuthor.author x).
Proof.
  intros (thought & _ & H)%list_elem_of_omap. unfold with_author in H.
  destruct (JsMap.get (Thought.authorId thought) (users s)) eqn:E; [|done].
  injection H as <-. done.
Qed.







(** * Further properties *)

(** ** Department calls: failure, success and what they keep *)

Lemma existsb_false_forall {A} (p : A → bool) (l : list A) :
  existsb p l = false ↔ ∀ x, x ∈ l → p x = false.
Proof.
  induction l as [|y l IH]; simpl.
  - split; [intros _ x H; by apply elem_of_nil in H | done].
  - rewrite orb_false_iff, IH. split.
    + intros [Hy Hl] x [->|Hx]%elem_of_cons; [done | by apply Hl].
    + intros H. split; [apply H; left | intros x Hx; apply H; by right].
Qed.

Lemma some_from_false {A} (p : A → nat → bool) (l : list A) (start : nat) :
  some_from start p l = false ↔
  ∀ j x, l !! j = Some x → p x (start + j)%nat = false.
Proof.
  revert start. induction l as [|y l IH]; intros start; simpl.
  - split; [by intros _ j x | done].
  - rewrite orb_false_iff, IH. split.
    + intros [Hy Hl] [|j] x; simpl.
      * intros [= <-]. by rewrite Nat.add_0_r.
      * intros Hj. rewrite <- Nat.add_succ_comm. by apply Hl.
    + intros H. split.
      * specialize (H 0%nat y eq_refl). by rewrite Nat.add_0_r in H.
      * intros j x Hj. rewrite Nat.add_succ_comm. by apply (H (S j)).
Qed.

(** The three department methods, seen from the list of one clinic: a
    property of department lists that survives appending a new name,
    renaming an entry to a name no other entry has, and deleting an entry,
    survives every sequence of calls. *)
Lemma step_every_department_list (P : list string → Prop) (c : call) s :
  (∀ l name, P l → trim name ≠ "" →
             (∀ d, d ∈ l → toLowerCase d ≠ toLowerCase (trim name)) →
             P (l ++ [trim name])) →
  (∀ l i name, P l → trim name ≠ "" → is_Some (l !! i) →
               (∀ j d, l !! j = Some d → j ≠ i →
                       toLowerCase d ≠ toLowerCase (trim name)) →
               P (<[i := trim name]> l)) →
  (∀ l i, P l → is_Some (l !! i) → P (delete i l)) →
  every_department_list P s → every_department_list P (step c s).
Proof.
  intros Hadd Hrename Hdelete Hs.
  assert (Hset : ∀ k c0 l s0,
    clinics s0 = clinics s → P l →
    every_department_list P (set_clinics (JsMap.set k (Clinic.with_departments l c0)) s0)).
  { intros k c0 l s0 Hs0 Hl cid clinic. simpl. rewrite Hs0.
    intros [[-> ->]|[_ Hget]]%get_set_wf; [done | by apply (Hs cid)]. }
  assert (Hsame : ∀ s0, clinics s0 = clinics s → every_department_list P s0).
  { intros s0 Hs0 cid clinic. rewrite Hs0. apply Hs. }
  destruct c; simpl.
  - unfold addDepartmentToClinic. run_monad.
    destruct (JsMap.get clinicId (clinics s)) as [clinic|] eqn:Hclinic; simpl; [|done].
    destruct (truthy_string (trim department)) eqn:Htrim; simpl; [|done].
    destruct (existsb _ _) eqn:Hex; simpl; [done|].
    apply Hset; [done|].
    apply Hadd; [by apply (Hs clinicId) | by destruct (trim department) |].
    intros d0 Hd0 Heq. rewrite existsb_false_forall in Hex.
    specialize (Hex d0 Hd0). simpl in Hex. apply String.eqb_neq in Hex. done.
  - unfold updateDepartmentInClinic. run_monad.
    destruct (JsMap.get clinicId (clinics s)) as [clinic|] eqn:Hclinic; simpl; [|done].
    destruct (truthy_string (trim oldDepartment)); simpl; [|done].
    destruct (truthy_string (trim newDepartment)) eqn:Hnew; simpl; [|done].
    destruct (findIndex _ _) as [index|] eqn:Hfind; simpl; [|done].
    destruct (some_from _ _ _) eqn:Hsome; simpl; [done|].
    loop_frame clinics_for_of_thoughts Hloop.
    apply Hset; [apply Hloop; intros x s2; apply cascade_body_clinics|].
    apply findIndex_Some in Hfind as (stored & Hstored & _).
    apply Hrename;
      [by apply (Hs clinicId) | by destruct (trim newDepartment) | by exists stored |].
    intros j d0 Hj Hne Heq. rewrite some_from_false in Hsome.
    specialize (Hsome j d0 Hj). simpl in Hsome.
    destruct (Nat.eqb_spec j index); [done|]. simpl in Hsome.
    apply String.eqb_neq in Hsome. done.
  - unfold removeDepartmentFromClinic. run_monad.
    destruct (JsMap.get clinicId (clinics s)) as [clinic|] eqn:Hclinic; simpl; [|done].
    destruct (truthy_string (trim department)); simpl; [|done].
    destruct (findIndex _ _) as [index|] eqn:Hfind; simpl; [|done].
    destruct (length _ <=? 1)%nat; simpl; [done|].
    loop_frame clinics_for_of_thoughts Hloop.
    apply Hset; [apply Hloop; intros x s2; apply cascade_body_clinics|].
    rewrite filter_from_delete by lia. rewrite Nat.sub_0_r.
    apply findIndex_Some in Hfind as (stored & Hstored & _).
    apply Hdelete; [by apply (Hs clinicId) | by exists stored].
  - by apply Hsame.
  - apply Hsame. unfold updateThought. run_monad.
    by destruct (JsMap.get id (thoughts s)).
  - apply Hsame. unfold deleteThought. run_monad.
    by destruct (JsMap.get id (thoughts s)).
  - apply Hsame. unfold markThoughtAsRead. run_monad.
    by destruct (JsMap.get thoughtId (thoughts s)).
Qed.

Lemma run_every_department_list (P : list string → Prop) (calls : list call) s :
  (∀ l name, P l → trim name ≠ "" →
             (∀ d, d ∈ l → toLowerCase d ≠ toLowerCase (trim name)) →
             P (l ++ [trim name])) →
  (∀ l i name, P l → trim name ≠ "" → is_Some (l !! i) →
               (∀ j d, l !! j = Some d → j ≠ i →
                       toLowerCase d ≠ toLowerCase (trim name)) →
               P (<[i := trim name]> l)) →
  (∀ l i, P l → is_Some (l !! i) → P (delete i l)) →
  every_department_list P s → every_department_list P (run calls s).
Proof.
  intros Hadd Hrename Hdelete. revert s. unfold run.
  induction calls as [|c calls IH]; intros s Hs; simpl; [done|].
  apply IH. by apply step_every_department_list.
Qed.



(** X2: The department methods never store an empty name: if no clinic has
    an empty department name, none has one after any sequence of calls. *)
Theorem department_names_stay_nonempty (calls : list call) s :
  every_department_list nonempty_names s →
  every_department_list nonempty_names (run calls s).
Proof.
  apply run_every_department_list; unfold nonempty_names.
  - intros l name Hl Hx _. apply Forall_app. split; [done|]. by constructor.
  - intros l i name Hl Hx _ _. by apply Forall_insert.
  - intros l i Hl _. by apply Forall_delete.
Qed.

Lemma department_names_stay_nonempty_witness :
  every_department_list nonempty_names
    (run [AddDepartment 1 "  "; AddDepartment 1 " Surgery ";
          UpdateDepartment 1 "general" "Front desk"] Samples.two_clinics).
Proof.
  apply department_names_stay_nonempty.
  intros clinicId clinic Hget%JsMapFacts.get_elem_of. unfold nonempty_names.
  clinics_cases Samples.two_clinics Hget ltac:(by repeat constructor).
Defined.

(** X4: A department call that returns false has changed nothing. *)
Theorem department_call_failure_changes_nothing
    (clinicId : Z) (department newDepartment : string) s :
  (eval (addDepartmentToClinic clinicId department) s = false →
   exec (addDepartmentToClinic clinicId department) s = s)
  ∧ (eval (updateDepartmentInClinic clinicId department newDepartment) s = false →
     exec (updateDepartmentInClinic clinicId department newDepartment) s = s)
  ∧ (eval (removeDepartmentFromClinic clinicId department) s = false →
     exec (removeDepartmentFromClinic clinicId department) s = s).
Proof.
  split_and!.
  - unfold addDepartmentToClinic. run_monad.
    destruct (JsMap.get clinicId (clinics s)); simpl; [|done].
    destruct (truthy_string (trim department)); simpl; [|done].
    by destruct (existsb _ _).
  - unfold updateDepartmentInClinic. run_monad.
    destruct (JsMap.get clinicId (clinics s)); simpl; [|done].
    destruct (negb (truthy_string (trim department))
              || negb (truthy_string (trim newDepartment))); simpl; [done|].
    destruct (findIndex _ _); simpl; [|done].
    destruct (some_from _ _ _); simpl; [done|].
    by destruct (for_of _ _ s) as [[] s1].
  - unfold removeDepartmentFromClinic. run_monad.
    destruct (JsMap.get clinicId (clinics s)); simpl; [|done].
    destruct (truthy_string (trim department)); simpl; [|done].
    destruct (findIndex _ _); simpl; [|done].
    destruct (length _ <=? 1)%nat; simpl; [done|].
    by destruct (for_of _ _ s) as [[] s1].
Qed.

Lemma department_call_failure_changes_nothing_witness :
  exec (addDepartmentToClinic 1 " CARDIOLOGY ") Samples.two_clinics = Samples.two_clinics
  ∧ exec (updateDepartmentInClinic 1 "general" "cardiology") Samples.two_clinics
    = Samples.two_clinics
  ∧ exec (removeDepartmentFromClinic 2 "cardiology") Samples.two_clinics
    = Samples.two_clinics.
Proof.
  destruct (department_call_failure_changes_nothing 1 " CARDIOLOGY " "" Samples.two_clinics)
    as (Hadd & _ & _).
  destruct (department_call_failure_changes_nothing 1 "general" "cardiology"
              Samples.two_clinics) as (_ & Hupdate & _).
  destruct (department_call_failure_changes_nothing 2 "cardiology" "" Samples.two_clinics)
    as (_ & _ & Hremove).
  split_and!; [apply Hadd | apply Hupdate | apply Hremove]; reflexivity.
Defined.

(** ** Adding a department and removing it again *)





(** ** The history after creating, editing and deleting *)

Lemma stored_entries_none (k : Z) s :
  (∀ entry, entry ∈ JsMap.values (thoughtHistory s) →
            ThoughtHistory.thoughtId entry < k) →
  stored_entries k s = [].
Proof.
  unfold stored_entries. induction (JsMap.values (thoughtHistory s)) as [|e l IH];
    intros H; simpl; [done|].
  destruct (Z.eqb_spec (ThoughtHistory.thoughtId e) k) as [Heq|Hne].
  - specialize (H e ltac:(left)). lia.
  - apply IH. intros entry Hin. apply H. by right.
Qed.


(** X8: In a store reached from [new MemStorage()], creating a thought and
    then deleting it leaves exactly two history entries for it, a [created]
    one by the creator followed by a [deleted] one by the deleter, and the
    thought itself is kept, flagged as deleted, with its title and content. *)
Theorem create_then_delete_history
    (calls : list call) (now now' later later' : Z)
    (insertThought : InsertThought.t) (userId deleterId : Z) :
  let s := run calls MemStorage_new in
  let thought := eval (createThought now now' insertThought userId) s in
  let s1 := exec (createThought now now' insertThought userId) s in
  let s2 := exec (deleteThought later later' (Thought.id thought) deleterId) s1 in
  eval (deleteThought later later' (Thought.id thought) deleterId) s1 = true
  ∧ map ThoughtHistory.changeType (stored_entries (Thought.id thought) s2)
    = [created; deleted]
  ∧ map ThoughtHistory.editedBy (stored_entries (Thought.id thought) s2)
    = [userId; deleterId]
  ∧ ∃ kept,
      JsMap.get (Thought.id thought) (thoughts s2) = Some kept
      ∧ Thought.isDeleted kept = Some true
      ∧ Thought.deletedBy kept = Some deleterId
      ∧ Thought.title kept = Thought.title thought
      ∧ Thought.content kept = Thought.content thought.
Proof.
  intros s thought s1 s2.
  assert (Hs : history_consistent s) by apply run_consistent, history_consistent_new.
  destruct Hs as (Hwf & Hth & Hhist & Hkeys).
  assert (Hfresh := fresh_history_id s Hkeys).
  assert (Hnone := stored_entries_none (currentThoughtId s) s Hhist).
  subst thought s1 s2. unfold_method. rewrite JsMapFacts.get_set_eq. simpl.
  split; [done|].
  assert (Hfresh' : JsMap.get (currentHistoryId s + 1)
            (JsMap.set (currentHistoryId s)
               (ThoughtHistory.mk (currentHistoryId s) (currentThoughtId s)
                  (Some (InsertThought.title insertThought))
                  (Some (InsertThought.content insertThought))
                  (Some (string_or (InsertThought.category insertThought) "General"))
                  (string_or_null (InsertThought.department insertThought))
                  userId (Some now') created)
               (thoughtHistory s)) = None).
  { apply JsMapFacts.get_None_keys. rewrite JsMapFacts.keys_set. unfold JsMap.has.
    rewrite Hfresh. intros [Hin|Heq%list_elem_of_singleton]%elem_of_app; [|lia].
    apply Hkeys in Hin. lia. }
  unfold stored_entries in *. simpl.
  rewrite !values_set_fresh by done. rewrite !List.filter_app, Hnone. simpl.
  rewrite Z.eqb_refl. simpl. split_and!; [done | done |].
  eexists. rewrite JsMapFacts.get_set_eq. by split_and!.
Qed.








(** ** Queries over the thoughts of a clinic *)






(** ** The unread count *)

Lemma get_split {V} (k : Z) (v : V) (m : list (Z * V)) :
  JsMap.get k m = Some v →
  ∃ m1 m2, m = m1 ++ (k, v) :: m2 ∧ k ∉ JsMap.keys m1.
Proof.
  induction m as [|[k0 v0] m IH]; simpl; [done|].
  destruct (Z.eqb_spec k0 k) as [->|Hne].
  - intros [= ->]. exists [], m. split; [done | apply not_elem_of_nil].
  - intros (m1 & m2 & -> & Hk)%IH. exists ((k0, v0) :: m1), m2. split; [done|].
    unfold JsMap.keys in *. simpl. rewrite not_elem_of_cons. by split.
Qed.

Lemma values_middle {V} (m1 m2 : list (Z * V)) (k : Z) (v : V) :
  JsMap.values (m1 ++ (k, v) :: m2) = JsMap.values m1 ++ v :: JsMap.values m2.
Proof. unfold JsMap.values. by rewrite map_app. Qed.

(** X15: Marking a thought as read lowers the unread count of its clinic by
    exactly one when the thought was counted (not deleted, not read) and
    leaves every count as it is otherwise; for an unknown id the call returns
    false and changes nothing. *)
Theorem markThoughtAsRead_unread_count (now thoughtId clinicId : Z) s :
  let s' := exec (markThoughtAsRead now thoughtId) s in
  match JsMap.get thoughtId (thoughts s) with
  | Some thought =>
      eval (markThoughtAsRead now thoughtId) s = true
      ∧ eval (getUnreadThoughtsCount clinicId) s
        = (eval (getUnreadThoughtsCount clinicId) s'
           + if counts_as_unread clinicId thought then 1 else 0)%nat
  | None => eval (markThoughtAsRead now thoughtId) s = false ∧ s' = s
  end.
Proof.
  unfold markThoughtAsRead, getUnreadThoughtsCount. run_monad.
  destruct (JsMap.get thoughtId (thoughts s)) as [thought|] eqn:Hget; simpl; [|done].
  split; [done|].
  apply get_split in Hget as (m1 & m2 & -> & Hk).
  rewrite JsMapFacts.set_middle by done. rewrite !values_middle, !List.filter_app.
  simpl. rewrite andb_false_r. rewrite !length_app. unfold counts_as_unread.
  destruct (_ && _ && _); simpl; lia.
Qed.

Lemma filter_all {A} (p : A → bool) (l : list A) :
  (∀ x, x ∈ l → p x = true) → List.filter p l = l.
Proof.
  induction l as [|y l IH]; intros H; simpl; [done|].
  rewrite (H y) by left. f_equal. apply IH. intros x Hx. apply H. by right.
Qed.

(** X14: The query for the unread thoughts of a clinic never returns more
    thoughts than [getUnreadThoughtsCount] counts, and exactly as many when
    the author of every counted thought still exists. *)
Theorem unread_query_within_unread_count (tz clinicId : Z) s :
  let result := eval (getThoughtsByClinic tz clinicId false (Some unread_only)) s in
  (length result ≤ eval (getUnreadThoughtsCount clinicId) s)%nat
  ∧ ((∀ thought,
        thought ∈ JsMap.values (thoughts s) →
        counts_as_unread clinicId thought = true →
        JsMap.has (Thought.authorId thought) (users s) = true) →
     length result = eval (getUnreadThoughtsCount clinicId) s).
Proof.
  intros result. subst result. unfold eval.
  rewrite getThoughtsByClinic_value. unfold getUnreadThoughtsCount, gets. cbn [fst].
  rewrite (Permutation_length (Array_sort_Permutation _ _)).
  rewrite <- (length_map ThoughtWithAuthor.thought), map_thought_with_author.
  cbv zeta. set (kept := apply_filters _ _ _).
  assert (Hkept : kept = List.filter (counts_as_unread clinicId) (JsMap.values (thoughts s))).
  { subst kept. unfold apply_filters, unread_only.
    cbn [Filters.startDate Filters.endDate Filters.userId Filters.department
         Filters.includeRead].
    rewrite !filter_filter. apply List.filter_ext. intros x.
    unfold counts_as_unread. simpl. by rewrite ?andb_assoc. }
  rewrite Hkept. clear kept Hkept. split.
  - apply List.filter_length_le.
  - intros Hauthors. rewrite filter_all; [done|].
    intros x [Hx Hp]%list_elem_of_In%filter_In. apply Hauthors; [|done].
    by apply list_elem_of_In.
Qed.

Lemma unread_query_within_unread_count_witness :
  length (eval (getThoughtsByClinic 0 1 false (Some unread_only)) Samples.two_clinics)
  = eval (getUnreadThoughtsCount 1) Samples.two_clinics.
Proof.
  apply (unread_query_within_unread_count 0 1 Samples.two_clinics).
  intros thought Hin Hunread.
  change (JsMap.values (thoughts Samples.two_clinics)) with
    (map snd (thoughts Samples.two_clinics)) in Hin.
  let l := eval vm_compute in (map snd (thoughts Samples.two_clinics)) in
  change (map snd (thoughts Samples.two_clinics)) with l in Hin.
  repeat (apply elem_of_cons in Hin as [->|Hin]; [reflexivity|]).
  by apply elem_of_nil in Hin.
Defined.

(** ** Users *)

Lemma get_delete_ne {V} (k k' : Z) (m : list (Z * V)) :
  k ≠ k' → JsMap.get k' (JsMap.delete k m) = JsMap.get k' m.
Proof.
  intros Hne. induction m as [|[k0 v0] m IH]; simpl; [done|].
  destruct (Z.eqb_spec k0 k) as [->|Hk]; simpl.
  - by destruct (Z.eqb_spec k k').
  - by rewrite IH.
Qed.

Lemma elem_of_values_set {V} (k : Z) (v : V) (m : list (Z * V)) :
  v ∈ JsMap.values (JsMap.set k v m).
Proof.
  unfold JsMap.values. induction m as [|[k0 v0] m IH]; simpl; [left|].
  destruct (Z.eqb k0 k); simpl; [left | by right].
Qed.

Lemma find_set_unique {V} (p : V → bool) (k : Z) (v : V) (m : list (Z * V)) :
  (∀ v', v' ∈ JsMap.values m → p v' = false) → p v = true →
  List.find p (JsMap.values (JsMap.set k v m)) = Some v.
Proof.
  unfold JsMap.values. intros Hm Hv. induction m as [|[k0 v0] m IH]; simpl.
  - by rewrite Hv.
  - destruct (Z.eqb k0 k); simpl; [by rewrite Hv|].
    rewrite (Hm v0) by left. apply IH. intros v' Hv'. apply Hm. by right.
Qed.

(** X16: A user that was just created is found by [getUser] under the id
    returned, and by [getUserByUsername] when no stored user had that
    username; the user has role ["user"] unless a non-empty role was given,
    and is listed by [getUsersByClinic] for exactly the non-zero clinic id
    given. *)
Theorem createUser_lookup (now : Z) (insertUser : InsertUser.t) s :
  let user := eval (createUser now insertUser) s in
  let s' := exec (createUser now insertUser) s in
  User.id user = currentUserId s
  ∧ eval (getUser (User.id user)) s' = Some user
  ∧ ((∀ other, other ∈ JsMap.values (users s) →
               User.username other ≠ InsertUser.username insertUser) →
     eval (getUserByUsername (InsertUser.username insertUser)) s' = Some user)
  ∧ User.role user = string_or (InsertUser.role insertUser) "user"
  ∧ (∀ clinicId,
       user ∈ eval (getUsersByClinic clinicId) s'
       ↔ InsertUser.clinicId insertUser = Some clinicId ∧ clinicId ≠ 0)
  ∧ eval hasAnyUsers s' = true.
Proof.
  intros user s'. subst user s'.
  unfold createUser, getUser, getUserByUsername, getUsersByClinic, hasAnyUsers,
    next_userId, set_users.
  run_monad. split_and!.
  - done.
  - apply JsMapFacts.get_set_eq.
  - intros Hfresh. apply find_set_unique; simpl; [|apply String.eqb_refl].
    intros other Hother. apply String.eqb_neq. by apply Hfresh.
  - done.
  - intros clinicId. rewrite list_elem_of_In, filter_In, <- list_elem_of_In. simpl.
    unfold number_or_null, truthy_number. split.
    + intros [_ H]. destruct (InsertUser.clinicId insertUser) as [c|]; [|done].
      destruct (Z.eqb_spec c 0); simpl in H; [done|].
      apply Z.eqb_eq in H. by subst.
    + intros [-> Hne]. split; [apply elem_of_values_set|].
      destruct (Z.eqb_spec clinicId 0); [done|]. simpl. apply Z.eqb_refl.
  - apply Nat.ltb_lt. destruct (JsMap.set _ _ (users s)) eqn:E; simpl; [|lia].
    exfalso. clear -E. destruct (users s) as [|[k0 v0] m]; simpl in E; [done|].
    by destruct (Z.eqb k0 (currentUserId s)).
Qed.

Lemma createUser_lookup_witness :
  eval (getUserByUsername "nora")
    (exec (createUser 6 Samples.aUser)
       (exec (createClinic 5 (InsertClinic.mk "North" None None None)) MemStorage_new))
  = Some (User.mk 1 "nora" "nora@example.com" "secret" "user" (Some 1) (Some 6)).
Proof.
  destruct (createUser_lookup 6 Samples.aUser
              (exec (createClinic 5 (InsertClinic.mk "North" None None None)) MemStorage_new))
    as (_ & _ & Hname & _).
  apply Hname. intros other Hother. by apply elem_of_nil in Hother.
Defined.

(** X17: [setupFirstAdmin] works in any store: it creates the clinic, with
    the departments ["General"] and ["Administration"] unless a list is given,
    and a user whose role is ["admin"] and whose clinic is the new one
    whatever role and clinic the input names; afterwards [hasAnyUsers] is true
    and, the clinic counter not being 0, [getUserWithClinic] returns the
    user together with the clinic. *)
Theorem setupFirstAdmin_spec
    (now now' : Z) (user : InsertUser.t) (clinic : InsertClinic.t) s :
  let created := eval (setupFirstAdmin now now' user clinic) s in
  let s' := exec (setupFirstAdmin now now' user clinic) s in
  User.role created.1 = "admin"
  ∧ User.clinicId created.1 = Some (Clinic.id created.2)
  ∧ Clinic.departments created.2
    = Some (default ["General"; "Administration"] (InsertClinic.departments clinic))
  ∧ eval hasAnyUsers s' = true
  ∧ eval (getClinic (Clinic.id created.2)) s' = Some created.2
  ∧ (currentClinicId s ≠ 0 →
     eval (getUserWithClinic (User.id created.1)) s'
     = Some (UserWithClinic.mk created.1 (Some created.2))).
Proof.
  intros created s'. subst created s'.
  unfold setupFirstAdmin, getUserWithClinic, getClinic, hasAnyUsers,
    next_userId, next_clinicId, set_users, set_clinics.
  run_monad. split_and!; try done.
  - apply Nat.ltb_lt. destruct (JsMap.set _ _ (users s)) eqn:E; simpl; [|lia].
    exfalso. clear -E. destruct (users s) as [|[k0 v0] m]; simpl in E; [done|].
    by destruct (Z.eqb k0 (currentUserId s)).
  - apply JsMapFacts.get_set_eq.
  - intros Hne. rewrite JsMapFacts.get_set_eq. simpl.
    unfold truthy_number. destruct (Z.eqb_spec (currentClinicId s) 0); [done|]. simpl.
    by rewrite JsMapFacts.get_set_eq.
Qed.

Lemma setupFirstAdmin_spec_witness :
  eval (getUserWithClinic 1)
    (exec (setupFirstAdmin 1 2 Samples.aUser (InsertClinic.mk "North" None None None))
       MemStorage_new)
  = Some (UserWithClinic.mk
            (User.mk 1 "nora" "nora@example.com" "secret" "admin" (Some 1) (Some 2))
            (Some (Clinic.mk 1 "North" None None (Some ["General"; "Administration"])
                     (Some 1)))).
Proof.
  refine (proj2 (proj2 (proj2 (proj2 (proj2
    (setupFirstAdmin_spec 1 2 Samples.aUser (InsertClinic.mk "North" None None None)
       MemStorage_new))))) _).
  by vm_compute.
Defined.

(** [getThoughtHistory] attaches to an entry the stored user, or the
    placeholder. *)
Lemma getThoughtHistory_editedByUser now thoughtId s x :
  x ∈ eval (getThoughtHistory now thoughtId) s →
  ThoughtHistoryWithUser.editedByUser x
  = default (unknownUser (ThoughtHistory.editedBy (ThoughtHistoryWithUser.entry x)))
      (JsMap.get (ThoughtHistory.editedBy (ThoughtHistoryWithUser.entry x)) (users s)).
Proof.
  unfold eval. rewrite getThoughtHistory_value. cbn [fst]. cbv zeta.
  set (attach := λ entry : ThoughtHistory.t, ThoughtHistoryWithUser.mk entry _).
  assert (Hattach : ∀ l, x ∈ map attach l →
            ThoughtHistoryWithUser.editedByUser x
            = default (unknownUser
                         (ThoughtHistory.editedBy (ThoughtHistoryWithUser.entry x)))
                (JsMap.get (ThoughtHistory.editedBy (ThoughtHistoryWithUser.entry x))
                   (users s))).
  { intros l (e & -> & _)%list_elem_of_fmap. done. }
  destruct (length _ =? 0)%nat; [|apply Hattach].
  destruct (JsMap.get thoughtId (thoughts s)) as [currentThought|]; [|apply Hattach].
  intros [Hx|Hx%list_elem_of_singleton]%elem_of_app; [by apply (Hattach _ Hx)|].
  by subst x.
Qed.

(** X18: Deleting a user removes the user and nothing else: thoughts and
    history stay. From then on no listing of a clinic's thoughts returns a
    thought written by that user, while every history entry edited by that
    user is shown with the placeholder user. *)
Theorem deleteUser_leaves_thoughts (id : Z) s :
  JsMap.wf (users s) →
  let s' := exec (deleteUser id) s in
  eval (getUser id) s' = None
  ∧ (∀ other, other ≠ id → eval (getUser other) s' = eval (getUser other) s)
  ∧ thoughts s' = thoughts s
  ∧ thoughtHistory s' = thoughtHistory s
  ∧ (∀ tz clinicId includeDeleted filters x,
       x ∈ eval (getThoughtsByClinic tz clinicId includeDeleted filters) s' →
       Thought.authorId (ThoughtWithAuthor.thought x) ≠ id)
  ∧ (∀ now thoughtId x,
       x ∈ eval (getThoughtHistory now thoughtId) s' →
       ThoughtHistory.editedBy (ThoughtHistoryWithUser.entry x) = id →
       ThoughtHistoryWithUser.editedByUser x = unknownUser id).
Proof.
  intros Hwf s'.
  assert (Hgone : JsMap.get id (users s') = None).
  { subst s'. unfold deleteUser. run_monad. by apply JsMapFacts.get_delete_eq. }
  split_and!.
  - done.
  - intros other Hne. subst s'. unfold deleteUser, getUser. run_monad.
    by apply get_delete_ne.
  - done.
  - done.
  - intros tz clinicId includeDeleted filters x Hx Hid.
    unfold eval in Hx. rewrite getThoughtsByClinic_value in Hx. cbn [fst] in Hx.
    rewrite Array_sort_Permutation in Hx. apply with_author_author in Hx.
    rewrite Hid in Hx. congruence.
  - intros now thoughtId x Hx Hid.
    rewrite (getThoughtHistory_editedByUser _ _ _ _ Hx), Hid, Hgone. done.
Qed.

Lemma deleteUser_leaves_thoughts_witness :
  thoughts Samples.january_orphan = thoughts Samples.january_thought
  ∧ Forall (λ x, ThoughtHistoryWithUser.editedByUser x = unknownUser 1)
      (eval (getThoughtHistory 0 1) Samples.january_orphan).
Proof.
  destruct (deleteUser_leaves_thoughts 1 Samples.january_thought)
    as (_ & _ & Hthoughts & _ & _ & Hhistory).
  { unfold JsMap.wf. apply (bool_decide_unpack _). by vm_compute. }
  split.
  - exact Hthoughts.
  - apply Forall_forall. intros x Hx. apply (Hhistory 0 1 x Hx).
    change (eval (getThoughtHistory 0 1) (exec (deleteUser 1) Samples.january_thought))
      with (eval (getThoughtHistory 0 1) Samples.january_orphan) in Hx.
    revert Hx. let l := eval vm_compute in
      (eval (getThoughtHistory 0 1) Samples.january_orphan) in
    change (eval (getThoughtHistory 0 1) Samples.january_orphan) with l.
    intros Hx. repeat (apply elem_of_cons in Hx as [->|Hx]; [reflexivity|]).
    by apply elem_of_nil in Hx.
Defined.

(** ** Clinics *)

(** X19: Deleting a clinic deletes only the clinic: its users and thoughts
    stay stored and listed, a user of the clinic is returned by
    [getUserWithClinic] without a clinic, and the department list of the
    deleted clinic reads [["General"]]. *)
Theorem deleteClinic_does_not_cascade (id : Z) s :
  JsMap.wf (clinics s) →
  let s' := exec (deleteClinic id) s in
  eval (deleteClinic id) s = JsMap.has id (clinics s)
  ∧ eval (getClinic id) s' = None
  ∧ eval (getDepartmentsByClinic id) s' = ["General"]
  ∧ users s' = users s
  ∧ thoughts s' = thoughts s
  ∧ thoughtHistory s' = thoughtHistory s
  ∧ eval (getUsersByClinic id) s' = eval (getUsersByClinic id) s
  ∧ (∀ tz includeDeleted filters,
       eval (getThoughtsByClinic tz id includeDeleted filters) s'
       = eval (getThoughtsByClinic tz id includeDeleted filters) s)
  ∧ (∀ userId user,
       JsMap.get userId (users s) = Some user →
       User.clinicId user = Some id →
       eval (getUserWithClinic userId) s' = Some (UserWithClinic.mk user None)).
Proof.
  intros Hwf s'.
  assert (Hgone : JsMap.get id (clinics s') = None).
  { subst s'. unfold deleteClinic. run_monad. by apply JsMapFacts.get_delete_eq. }
  split_and!; try done.
  - unfold getDepartmentsByClinic. run_monad. fold s'. by rewrite Hgone.
  - intros tz includeDeleted filters. unfold eval.
    by rewrite !getThoughtsByClinic_value.
  - intros userId user Hget Hclinic. unfold getUserWithClinic. run_monad.
    change (users s') with (users s). rewrite Hget, Hclinic. simpl.
    destruct (truthy_number id); simpl; [|done]. fold s'. by rewrite Hgone.
Qed.

Lemma deleteClinic_does_not_cascade_witness :
  eval (getUsersByClinic 1) (exec (deleteClinic 1) Samples.two_clinics)
  = eval (getUsersByClinic 1) Samples.two_clinics
  ∧ eval (getUserWithClinic 1) (exec (deleteClinic 1) Samples.two_clinics)
    = Some (UserWithClinic.mk
              (User.mk 1 "nora" "nora@example.com" "secret" "user" (Some 1) (Some 6)) None).
Proof.
  destruct (deleteClinic_does_not_cascade 1 Samples.two_clinics)
    as (_ & _ & _ & _ & _ & _ & Husers & _ & Huser).
  { unfold JsMap.wf. apply (bool_decide_unpack _). by vm_compute. }
  split; [exact Husers|]. by apply Huser.
Defined.

(** X20: [updateClinic] merges the given fields into the stored clinic and
    keeps its id and creation date; the department list read back afterwards
    is the list given (the default for null), which may be empty: this method
    does not keep a clinic at one department or more. An unknown id gives
    no clinic and no change. *)
Theorem updateClinic_departments (id : Z) (updates : ClinicUpdates.t) s :
  let s' := exec (updateClinic id updates) s in
  match JsMap.get id (clinics s) with
  | Some clinic =>
      (∃ updated,
         eval (updateClinic id updates) s = Some updated
         ∧ eval (getClinic id) s' = Some updated
         ∧ Clinic.id updated = Clinic.id clinic
         ∧ Clinic.createdAt updated = Clinic.createdAt clinic)
      ∧ eval (getDepartmentsByClinic id) s'
        = match ClinicUpdates.departments updates with
          | Some (Some given) => given
          | Some None => ["General"]
          | None => eval (getDepartmentsByClinic id) s
          end
      ∧ (ClinicUpdates.departments updates = Some (Some []) → ¬ has_department id s')
      ∧ thoughts s' = thoughts s
  | None => eval (updateClinic id updates) s = None ∧ s' = s
  end.
Proof.
  intros s'. subst s'. unfold updateClinic, getDepartmentsByClinic, getClinic. run_monad.
  destruct (JsMap.get id (clinics s)) as [clinic|] eqn:Hget; simpl; [|done].
  rewrite JsMapFacts.get_set_eq. simpl. split_and!.
  - eexists. by split_and!.
  - by destruct (ClinicUpdates.departments updates) as [[given|]|].
  - intros Hempty (clinic' & Hget' & Hlen). simpl in Hget'.
    rewrite JsMapFacts.get_set_eq in Hget'. injection Hget' as <-.
    unfold spread_clinic_updates in Hlen. simpl in Hlen.
    rewrite Hempty in Hlen. simpl in Hlen. lia.
  - done.
Qed.

Lemma updateClinic_departments_witness :
  ¬ has_department 1
      (exec (updateClinic 1 (ClinicUpdates.mk None None None (Some (Some []))))
         Samples.two_clinics).
Proof.
  pose proof (updateClinic_departments 1
                (ClinicUpdates.mk None None None (Some (Some []))) Samples.two_clinics)
    as H.
  change (JsMap.get 1 (clinics Samples.two_clinics)) with
    (Some (Clinic.mk 1 "North" None None (Some ["General"; "Cardiology"]) (Some 4))) in H.
  destruct H as (_ & _ & Hempty & _). by apply Hempty.
Defined.

(** ** Creating and editing thoughts *)

(** X10: In a store reached from [new MemStorage()], [createThought] uses an
    id that no stored thought has, leaves every stored thought as it is, and
    the new thought is returned by [getThought]; it is unread whatever the
    input says about [isRead] and [readAt], and its history is exactly one
    [created] entry by the given user. *)
Theorem createThought_is_fresh
    (calls : list call) (now now' : Z) (insertThought : InsertThought.t) (userId : Z) :
  let s := run calls MemStorage_new in
  let thought := eval (createThought now now' insertThought userId) s in
  let s' := exec (createThought now now' insertThought userId) s in
  JsMap.get (Thought.id thought) (thoughts s) = None
  ∧ eval (getThought (Thought.id thought)) s' = Some thought
  ∧ (∀ k other, JsMap.get k (thoughts s) = Some other →
                JsMap.get k (thoughts s') = Some other)
  ∧ Thought.isRead thought = Some false
  ∧ Thought.readAt thought = None
  ∧ map (λ e, (ThoughtHistory.changeType e, ThoughtHistory.editedBy e))
      (stored_entries (Thought.id thought) s') = [(created, userId)].
Proof.
  intros s thought s'.
  assert (Hs : history_consistent s) by apply run_consistent, history_consistent_new.
  destruct Hs as (Hwf & Hth & Hhist & Hkeys).
  assert (Hnew : JsMap.get (currentThoughtId s) (thoughts s) = None).
  { destruct (JsMap.get (currentThoughtId s) (thoughts s)) as [t|] eqn:E; [|done].
    apply Hth in E as [E _]. lia. }
  assert (Hfresh := fresh_history_id s Hkeys).
  assert (Hnone := stored_entries_none (currentThoughtId s) s Hhist).
  subst thought s'. unfold getThought. unfold_method. split_and!; try done.
  - apply JsMapFacts.get_set_eq.
  - intros k other Hk. rewrite JsMapFacts.get_set_ne; [done|]. congruence.
  - unfold stored_entries in *. simpl. rewrite values_set_fresh by done.
    rewrite List.filter_app, Hnone. simpl. by rewrite Z.eqb_refl.
Qed.

Lemma createThought_is_fresh_witness :
  let s := run [CreateThought 1 2 (Samples.aThought None 1 1) 1] MemStorage_new in
  JsMap.get 1 (thoughts (exec (createThought 3 4 (Samples.aThought None 1 1) 1) s))
  = JsMap.get 1 (thoughts s).
Proof.
  intros s.
  destruct (createThought_is_fresh [CreateThought 1 2 (Samples.aThought None 1 1) 1]
              3 4 (Samples.aThought None 1 1) 1) as (_ & _ & Hkept & _).
  by apply Hkept.
Defined.

(** X11: A call that writes a thought under an id that is not stored fails
    and changes nothing; the history of an unknown thought without stored
    entries is empty. *)
Theorem thought_calls_on_unknown_id
    (now now' id userId : Z) (updates : ThoughtUpdates.t) s :
  JsMap.get id (thoughts s) = None →
  updateThought now now' id updates userId s = (None, s)
  ∧ deleteThought now now' id userId s = (false, s)
  ∧ markThoughtAsRead now id s = (false, s)
  ∧ (stored_entries id s = [] → getThoughtHistory now id s = ([], s)).
Proof.
  intros Hget. split_and!.
  - unfold updateThought. run_monad. by rewrite Hget.
  - unfold deleteThought. run_monad. by rewrite Hget.
  - unfold markThoughtAsRead. run_monad. by rewrite Hget.
  - intros Hnone. rewrite getThoughtHistory_value. cbv zeta. rewrite Hnone, Hget. done.
Qed.

Lemma thought_calls_on_unknown_id_witness :
  deleteThought 1 2 7 1 Samples.two_clinics = (false, Samples.two_clinics)
  ∧ getThoughtHistory 1 7 Samples.two_clinics = ([], Samples.two_clinics).
Proof.
  destruct (thought_calls_on_unknown_id 1 2 7 1
              (ThoughtUpdates.mk None None None None None None None None)
              Samples.two_clinics eq_refl) as (_ & Hdelete & _ & Hhistory).
  split; [exact Hdelete | by apply Hhistory].
Defined.




(** ** Surrounding whitespace *)

Lemma append_cons (c : ascii) (s t : string) : String c s +:+ t = String c (s +:+ t).
Proof. reflexivity. Qed.

Lemma append_nil_r (s : string) : s +:+ "" = s.
Proof. induction s as [|c s IH]; [done|]. by rewrite append_cons, IH. Qed.

Lemma append_assoc (s1 s2 s3 : string) : (s1 +:+ s2) +:+ s3 = s1 +:+ (s2 +:+ s3).
Proof. induction s1 as [|c s1 IH]; [done|]. by rewrite !append_cons, IH. Qed.

Lemma rev_app_append (s1 s2 : string) :
  String.rev_app s1 s2 = String.rev_app s1 "" +:+ s2.
Proof.
  revert s2. induction s1 as [|c s1 IH]; intros s2; simpl; [done|].
  rewrite (IH (String c s2)), (IH (String c "")). by rewrite append_assoc.
Qed.

Lemma rev_append (s1 s2 : string) :
  String.rev (s1 +:+ s2) = String.rev s2 +:+ String.rev s1.
Proof.
  unfold String.rev. induction s1 as [|c s1 IH].
  - by rewrite append_nil_r.
  - rewrite append_cons. simpl.
    rewrite rev_app_append, IH, (rev_app_append s1 (String c "")).
    by rewrite append_assoc.
Qed.

Lemma rev_involutive (s : string) : String.rev (String.rev s) = s.
Proof.
  induction s as [|c s IH]; [done|].
  change (String c s) with (String c "" +:+ s) at 1.
  rewrite rev_append, rev_append, IH. done.
Qed.

Lemma trimStart_split (s : string) : ∃ w, s = w +:+ trimStart s.
Proof.
  induction s as [|c s [w IH]]; simpl; [by exists ""|].
  destruct (is_whitespace c); [|by exists ""].
  exists (String c w). by rewrite append_cons, <- IH.
Qed.

Lemma length_append (s t : string) :
  String.length (s +:+ t) = (String.length s + String.length t)%nat.
Proof. induction s as [|c s IH]; [done|]. rewrite append_cons. simpl. by rewrite IH. Qed.

Lemma trimStart_fixed (s : string) :
  trimStart s = s ↔ match s with String c _ => is_whitespace c = false | _ => True end.
Proof.
  destruct s as [|c s]; simpl; [done|].
  destruct (is_whitespace c) eqn:Hc; [|done]. split; [|done].
  intros H. exfalso. destruct (trimStart_split s) as [w Hw].
  assert (Hlen := f_equal String.length Hw).
  rewrite length_append, H in Hlen. simpl in Hlen. lia.
Qed.

Lemma trimStart_idempotent (s : string) : trimStart (trimStart s) = trimStart s.
Proof.
  induction s as [|c s IH]; simpl; [done|].
  destruct (is_whitespace c) eqn:Hc; [done|]. simpl. by rewrite Hc.
Qed.

Lemma trimStart_prefix (p q : string) : trimStart (p +:+ q) = p +:+ q → trimStart p = p.
Proof.
  rewrite !trimStart_fixed. destruct p; [done|]. by rewrite append_cons.
Qed.

Lemma trim_idempotent (s : string) : trim (trim s) = trim s.
Proof.
  unfold trim.
  set (a := trimStart s).
  set (b := trimStart (String.rev a)).
  destruct (trimStart_split (String.rev a)) as [w Hw]. fold b in Hw.
  assert (Ha : a = String.rev b +:+ String.rev w).
  { rewrite <- (rev_involutive a), Hw. apply rev_append. }
  assert (Hfix : trimStart (String.rev b) = String.rev b).
  { apply (trimStart_prefix _ (String.rev w)). rewrite <- Ha. apply trimStart_idempotent. }
  rewrite Hfix, rev_involutive. subst b. by rewrite trimStart_idempotent.
Qed.

(** X7: The department methods see a name only through its trimmed form:
    passing [trim department] instead of [department], as the routes do,
    gives the same result and the same store. *)
Theorem department_methods_ignore_surrounding_whitespace
    (clinicId : Z) (department newDepartment : string) s :
  addDepartmentToClinic clinicId (trim department) s
  = addDepartmentToClinic clinicId department s
  ∧ updateDepartmentInClinic clinicId (trim department) (trim newDepartment) s
    = updateDepartmentInClinic clinicId department newDepartment s
  ∧ removeDepartmentFromClinic clinicId (trim department) s
    = removeDepartmentFromClinic clinicId department s.
Proof.
  unfold addDepartmentToClinic, updateDepartmentInClinic, removeDepartmentFromClinic.
  by rewrite !trim_idempotent.
Qed.

(** X3: The department methods store trimmed names only: if no department
    name of any clinic has surrounding whitespace, none has after any
    sequence of calls. *)
Theorem department_names_stay_trimmed (calls : list call) s :
  every_department_list trimmed_names s →
  every_department_list trimmed_names (run calls s).
Proof.
  apply run_every_department_list; unfold trimmed_names.
  - intros l name Hl _ _. apply Forall_app. split; [done|].
    constructor; [apply trim_idempotent | done].
  - intros l i name Hl _ _ _. apply Forall_insert; [done | apply trim_idempotent].
  - intros l i Hl _. by apply Forall_delete.
Qed.

Lemma department_names_stay_trimmed_witness :
  every_department_list trimmed_names
    (run [AddDepartment 1 "  Surgery "; UpdateDepartment 1 "general" " Front desk"]
       Samples.two_clinics).
Proof.
  apply department_names_stay_trimmed.
  intros clinicId clinic Hget%JsMapFacts.get_elem_of. unfold trimmed_names.
  clinics_cases Samples.two_clinics Hget ltac:(by repeat constructor).
Defined.

(** ** Renaming onto another department *)



